(** * Payment reminders of the collection service

    A shallow embedding of [CollectionService] (services/reportsService.ts,
    second module of the file) and of the mock [EmailService]
    (services/emailService.ts), and the properties of the reminder planner
    ([calculateReminders]) and of the processor ([sendReminder],
    [processPendingReminders]).

    Conventions of the embedding.
    - A JavaScript [Date] is its time value, a number of milliseconds, in [Z].
      An invalid date (time value NaN) is [None].
    - The integers of the configuration (offsets in days, [maxReminders]) are
      in [Z]; fractional and NaN configuration numbers are outside the model.
    - [Date.prototype.setDate (getDate () + n)] moves a date by [n] calendar
      days in local time; the model takes a time zone with a fixed offset, in
      which this is [n * 86400000] milliseconds.
    - [invoice.dueDate] is a string in the source, only ever used through
      [new Date (invoice.dueDate)]; the record keeps the time value of that
      date.
    - [Math.ceil (x / 86400000)] is computed on doubles in the source and on
      integers here; the two agree as long as the quotient is below 2^26
      days, far beyond any invoice. *)

From Stdlib Require Import ZArith List String Bool Lia QArith DecimalString.
From Stdlib Require DecimalZ DecimalPos.
Import ListNotations.
Local Open Scope Z_scope.

(** ** Data model *)

Inductive ReminderType : Type :=
| due_soon | overdue_1 | overdue_7 | overdue_14 | overdue_30 | final_warning.

Module ReminderStatus.
Inductive t : Type := pending | sent | failed | cancelled.
End ReminderStatus.

Record ReminderConfig : Type := {
  daysBeforeDue : list Z;
  daysAfterDue : list Z;
  enableEmail : bool;
  enablePush : bool;
  maxReminders : Z
}.

Record Reminder : Type := {
  id : string;
  invoiceId : string;
  clientId : string;
  clientEmail : string;
  type : ReminderType;
  scheduledFor : Z;
  sentAt : option Z;
  status : ReminderStatus.t;
  template : string
}.

Module Invoice.
Record InvoiceReminderData : Type := {
  invoiceId : string;
  clientId : string;
  clientName : string;
  clientEmail : string;
  amount : Q;
  dueDate : option Z;
  caseTitle : option string
}.
End Invoice.
Definition InvoiceReminderData : Type := Invoice.InvoiceReminderData.

Definition DEFAULT_CONFIG : ReminderConfig := {|
  daysBeforeDue := [3; 1];
  daysAfterDue := [1; 7; 14; 30];
  enableEmail := true;
  enablePush := true;
  maxReminders := 5
|}.

(** The object: [config] and the [reminders] map, which no method reads or
    writes. *)
Record CollectionService : Type := {
  config : ReminderConfig;
  reminders : list (string * list Reminder)
}.

Definition setConfig (this : CollectionService) (c : ReminderConfig)
  : CollectionService :=
  {| config := c; reminders := reminders this |}.

(** ** Dates and numbers *)

Definition msPerDay : Z := 1000 * 60 * 60 * 24.

(** [Math.ceil (x / msPerDay)] on integers. *)
Definition ceilDays (x : Z) : Z := - ((- x) / msPerDay).

Definition addDays (t n : Z) : Z := t + n * msPerDay.

(** [Math.ceil ((dueDate.getTime () - today.getTime ()) / msPerDay)];
    [None] is NaN. *)
Definition daysUntilDue (dueDate : option Z) (today : Z) : option Z :=
  match dueDate with
  | Some d => Some (ceilDays (d - today))
  | None => None
  end.

(** Number to string in a template literal. *)
Definition numToString (n : Z) : string :=
  NilZero.string_of_int (Z.to_int n).

(** [arr.slice (0, e)]: a negative end counts from the end of the array. *)
Definition slice0 {A : Type} (l : list A) (e : Z) : list A :=
  let len := Z.of_nat (List.length l) in
  let final := if e <? 0 then Z.max (len + e) 0 else Z.min e len in
  firstn (Z.to_nat final) l.

(** ** The planner *)

Definition beforeReminder (invoice : InvoiceReminderData) (today dud days : Z)
  : Reminder := {|
  id := ("rem_" ++ Invoice.invoiceId invoice ++ "_before_" ++ numToString days)%string;
  invoiceId := Invoice.invoiceId invoice;
  clientId := Invoice.clientId invoice;
  clientEmail := Invoice.clientEmail invoice;
  type := due_soon;
  scheduledFor := addDays today (dud - days);
  sentAt := None;
  status := ReminderStatus.pending;
  template := if dud <=? 1 then "payment_reminder_urgent" else "payment_reminder"
|}.

Definition afterType (days : Z) : ReminderType :=
  let t := overdue_1 in
  let t := if 7 <=? days then overdue_7 else t in
  let t := if 14 <=? days then overdue_14 else t in
  let t := if 30 <=? days then overdue_30 else t in
  t.

Definition afterReminder (invoice : InvoiceReminderData) (due days : Z)
  : Reminder := {|
  id := ("rem_" ++ Invoice.invoiceId invoice ++ "_after_" ++ numToString days)%string;
  invoiceId := Invoice.invoiceId invoice;
  clientId := Invoice.clientId invoice;
  clientEmail := Invoice.clientEmail invoice;
  type := afterType days;
  scheduledFor := addDays due days;
  sentAt := None;
  status := ReminderStatus.pending;
  template := if 30 <=? days then "final_warning" else "invoice_overdue"
|}.

(** Body of the first loop: [if (daysUntilDue >= days) reminders.push (...)]. *)
Definition pushBefore (invoice : InvoiceReminderData) (today : Z)
  (dud : option Z) (acc : list Reminder) (days : Z) : list Reminder :=
  match dud with
  | Some n => if days <=? n then acc ++ [beforeReminder invoice today n days]
              else acc
  | None => acc
  end.

(** Body of the second loop: [if (daysUntilDue < -days) reminders.push (...)]. *)
Definition pushAfter (invoice : InvoiceReminderData)
  (dud : option Z) (acc : list Reminder) (days : Z) : list Reminder :=
  match dud, Invoice.dueDate invoice with
  | Some n, Some due =>
      if n <? - days then acc ++ [afterReminder invoice due days] else acc
  | _, _ => acc
  end.

(** [calculateReminders] with the value of [new Date ()] made explicit. *)
Definition planAt (this : CollectionService) (invoice : InvoiceReminderData)
  (today : Z) : list Reminder :=
  let dud := daysUntilDue (Invoice.dueDate invoice) today in
  let reminders0 : list Reminder := [] in
  let reminders1 :=
    fold_left (pushBefore invoice today dud)
              (daysBeforeDue (config this)) reminders0 in
  let reminders2 :=
    fold_left (pushAfter invoice dud)
              (daysAfterDue (config this)) reminders1 in
  slice0 reminders2 (maxReminders (config this)).

(** ** Effects

    The methods below read the clock, write to the console and call the email
    service. A computation is a function of the environment that resolves
    with a value or rejects with an error (a thrown value, or a rejected
    promise under [await]). Synchronous code runs within one reading of the
    clock; time passes inside the awaited email service. *)

Definition Error : Type := string.

Inductive Outcome (A : Type) : Type :=
| Resolved (a : A)
| Rejected (e : Error).
Arguments Resolved {A} a.
Arguments Rejected {A} e.

Module Email.
Record Data : Type := {
  clientName : string;
  invoiceId : string;
  amount : Q;
  dueDate : option Z;
  caseTitle : option string;
  daysOverdue : option Z
}.
Record Payload : Type := {
  to : string;
  template : string;
  subject : option string;
  data : Data
}.
Record Response : Type := {
  success : bool;
  messageId : string;
  timestamp : Z;
  preview : option Payload
}.
End Email.

Inductive LogLine : Type :=
| CollectionSending (t : ReminderType) (invoiceId : string)
| CollectionFailed (e : Error)
| EmailDisabled
| EmailUnknownTemplate (template : string)
| EmailSimulated (p : Email.Payload).

Record Summary : Type := { sent : nat; failed : nat }.


Section Collection.

(** The state of the email service behind [emailService]. *)
Variable MailState : Type.

Record Env : Type := {
  time : Z;
  console : list LogLine;
  mail : MailState
}.

Definition M (A : Type) : Type := Env -> Outcome A * Env.

Definition ret {A : Type} (a : A) : M A := fun w => (Resolved a, w).

Definition bind {A B : Type} (m : M A) (k : A -> M B) : M B :=
  fun w =>
    match m w with
    | (Resolved a, w') => k a w'
    | (Rejected e, w') => (Rejected e, w')
    end.

(** [try { body } catch (error) { handler }] *)
Definition tryCatch {A : Type} (body : M A) (handler : Error -> M A) : M A :=
  fun w =>
    match body w with
    | (Resolved a, w') => (Resolved a, w')
    | (Rejected e, w') => handler e w'
    end.

(** [new Date ()], [Date.now ()] *)
Definition now : M Z := fun w => (Resolved (time w), w).

Definition withLog (w : Env) (l : LogLine) : Env :=
  {| time := time w; console := console w ++ [l]; mail := mail w |}.

(** [console.log], [console.error] *)
Definition log (l : LogLine) : M unit :=
  fun w => (Resolved tt, withLog w l).

Notation "x <- m ;; k" := (bind m (fun x => k))
  (at level 61, m at next level, right associativity).
Notation "m ;;; k" := (bind m (fun _ => k))
  (at level 61, right associativity).

(** [emailService.sendEmail], the notifier the service calls. *)
Variable sendEmail : Email.Payload -> M Email.Response.

Definition calculateReminders (this : CollectionService)
  (invoice : InvoiceReminderData) : M (list Reminder) :=
  today <- now ;;
  ret (planAt this invoice today).

Definition templateMap (t : ReminderType) : string :=
  match t with
  | due_soon => "payment_reminder"
  | overdue_1 => "invoice_overdue"
  | overdue_7 => "invoice_overdue"
  | overdue_14 => "invoice_overdue"
  | overdue_30 => "final_warning"
  | final_warning => "final_warning"
  end.

Definition reminderPayload (reminder : Reminder)
  (invoice : InvoiceReminderData) (dateNow : Z) : Email.Payload := {|
  Email.to := Invoice.clientEmail invoice;
  Email.template := templateMap (type reminder);
  Email.subject := None;
  Email.data := {|
    Email.clientName := Invoice.clientName invoice;
    Email.invoiceId := Invoice.invoiceId invoice;
    Email.amount := Invoice.amount invoice;
    Email.dueDate := Invoice.dueDate invoice;
    Email.caseTitle := Invoice.caseTitle invoice;
    Email.daysOverdue :=
      match Invoice.dueDate invoice with
      | Some d => Some (Z.abs (ceilDays (d - dateNow)))
      | None => None
      end
  |}
|}.

Definition markSent (reminder : Reminder) (at_ : Z) : Reminder := {|
  id := id reminder;
  invoiceId := invoiceId reminder;
  clientId := clientId reminder;
  clientEmail := clientEmail reminder;
  type := type reminder;
  scheduledFor := scheduledFor reminder;
  sentAt := Some at_;
  status := ReminderStatus.sent;
  template := template reminder
|}.

(** [sendReminder] resolves with its result and the reminder object as it
    has mutated it. *)
Definition sendReminder (this : CollectionService) (reminder : Reminder)
  (invoice : InvoiceReminderData) : M (Reminder * bool) :=
  log (CollectionSending (type reminder) (Invoice.invoiceId invoice)) ;;;
  (if enableEmail (config this)
   then dateNow <- now ;;
        sendEmail (reminderPayload reminder invoice dateNow) ;;;
        ret tt
   else ret tt) ;;;
  sentNow <- now ;;
  ret (markSent reminder sentNow, true).

Definition isPending (s : ReminderStatus.t) : bool :=
  match s with ReminderStatus.pending => true | _ => false end.

Definition incSent (s : Summary) : Summary :=
  {| sent := S (sent s); failed := failed s |}.
Definition incFailed (s : Summary) : Summary :=
  {| sent := sent s; failed := S (failed s) |}.

(** One turn of the inner loop of [processPendingReminders]. *)
Definition processReminder (this : CollectionService)
  (invoice : InvoiceReminderData) (reminder : Reminder) (acc : Summary)
  : M Summary :=
  date <- now ;;
  if isPending (status reminder) && (scheduledFor reminder <=? date)
  then tryCatch
         (r <- sendReminder this reminder invoice ;;
          if snd r then ret (incSent acc) else ret (incFailed acc))
         (fun error => log (CollectionFailed error) ;;; ret (incFailed acc))
  else ret acc.

(** [for (const reminder of reminders) { ... }] *)
Fixpoint processReminders (this : CollectionService)
  (invoice : InvoiceReminderData) (rs : list Reminder) (acc : Summary)
  : M Summary :=
  match rs with
  | [] => ret acc
  | reminder :: rest =>
      acc' <- processReminder this invoice reminder acc ;;
      processReminders this invoice rest acc'
  end.

(** [for (const invoice of invoices) { ... }] *)
Fixpoint processInvoices (this : CollectionService)
  (invoices : list InvoiceReminderData) (acc : Summary) : M Summary :=
  match invoices with
  | [] => ret acc
  | invoice :: rest =>
      rs <- calculateReminders this invoice ;;
      acc' <- processReminders this invoice rs acc ;;
      processInvoices this rest acc'
  end.

Definition processPendingReminders (this : CollectionService)
  (invoices : list InvoiceReminderData) : M Summary :=
  processInvoices this invoices {| sent := 0; failed := 0 |}.

End Collection.

Arguments time {MailState} _.
Arguments console {MailState} _.
Arguments mail {MailState} _.
Arguments Build_Env {MailState} _ _ _.
Arguments ret {MailState A} _ _.
Arguments bind {MailState A B} _ _ _.
Arguments tryCatch {MailState A} _ _ _.
Arguments now {MailState} _.
Arguments withLog {MailState} _ _.
Arguments log {MailState} _ _.
Arguments calculateReminders {MailState} _ _ _.
Arguments sendReminder {MailState} _ _ _ _ _.
Arguments processReminder {MailState} _ _ _ _ _ _.
Arguments processReminders {MailState} _ _ _ _ _ _.
Arguments processInvoices {MailState} _ _ _ _ _.
Arguments processPendingReminders {MailState} _ _ _ _.

(** ** The mock email service (services/emailService.ts)

    The texts of [EMAIL_TEMPLATES] are not modelled, only its keys: a logged
    or previewed mail is the payload it was rendered from. [randomId] gives
    the successive values of [Math.random ().toString (36).substr (2, 9)]. *)
Module EmailService.

Record State : Type := {
  isEnabled : bool;
  randomId : nat -> string;
  drawn : nat
}.

Definition EMAIL_TEMPLATES : list string :=
  [ "welcome"; "invoice_created"; "invoice_paid"; "invoice_overdue";
    "case_update"; "new_message"; "hearing_reminder"; "document_available";
    "payment_reminder" ]%string.

Definition hasTemplate (t : string) : bool :=
  existsb (String.eqb t) EMAIL_TEMPLATES.

Definition setEnabled (enabled : bool) (s : State) : State :=
  {| isEnabled := enabled; randomId := randomId s; drawn := drawn s |}.

(** [setTimeout (resolve, 500)] *)
Definition networkDelay : Z := 500.

Definition sendEmail (payload : Email.Payload) : M State Email.Response :=
  fun w =>
    if negb (isEnabled (mail w)) then
      (Resolved {| Email.success := false; Email.messageId := "";
                   Email.timestamp := time w; Email.preview := None |},
       {| time := time w; console := console w ++ [EmailDisabled];
          mail := mail w |})
    else if negb (hasTemplate (Email.template payload)) then
      (Resolved {| Email.success := false; Email.messageId := "";
                   Email.timestamp := time w; Email.preview := None |},
       {| time := time w;
          console := console w ++ [EmailUnknownTemplate (Email.template payload)];
          mail := mail w |})
    else
      let t := time w + networkDelay in
      (Resolved {| Email.success := true;
                   Email.messageId :=
                     ("mock_" ++ numToString t ++ "_"
                      ++ randomId (mail w) (drawn (mail w)))%string;
                   Email.timestamp := t;
                   Email.preview := Some payload |},
       {| time := t; console := console w ++ [EmailSimulated payload];
          mail := {| isEnabled := isEnabled (mail w);
                     randomId := randomId (mail w);
                     drawn := S (drawn (mail w)) |} |}).

End EmailService.

(** ** Specification-side definitions *)

(** The offsets of the two lists that pass the test of their loop. *)
Definition qualifiesBefore (dud : option Z) (days : Z) : bool :=
  match dud with Some n => days <=? n | None => false end.

Definition qualifiesAfter (dud : option Z) (days : Z) : bool :=
  match dud with Some n => n <? - days | None => false end.

(** The tiers of the qualifying offsets, in the order of the configuration. *)
Definition offsetTiers (cfg : ReminderConfig) (dud : option Z)
  : list ReminderType :=
  map (fun _ => due_soon) (filter (qualifiesBefore dud) (daysBeforeDue cfg))
  ++ map afterType (filter (qualifiesAfter dud) (daysAfterDue cfg)).

(** The list before [slice]: one reminder per qualifying offset. *)
Definition unsliced (this : CollectionService) (invoice : InvoiceReminderData)
  (today : Z) : list Reminder :=
  match Invoice.dueDate invoice with
  | Some due =>
      let n := ceilDays (due - today) in
      map (beforeReminder invoice today n)
          (filter (qualifiesBefore (Some n)) (daysBeforeDue (config this)))
      ++ map (afterReminder invoice due)
             (filter (qualifiesAfter (Some n)) (daysAfterDue (config this)))
  | None => []
  end.

(** A reminder the guard of [processPendingReminders] lets through at [t]. *)
Definition dueAt (t : Z) (r : Reminder) : bool :=
  isPending (status r) && (scheduledFor r <=? t).

Definition countDue (t : Z) (rs : list Reminder) : nat :=
  List.length (filter (dueAt t) rs).

(** Lines [[Collection] Sending <type> reminder for <invoiceId>] of a console. *)
Definition isDispatch (t : ReminderType) (inv : string) (l : LogLine) : bool :=
  match l with
  | CollectionSending t' inv' =>
      match t, t' with
      | due_soon, due_soon | overdue_1, overdue_1 | overdue_7, overdue_7
      | overdue_14, overdue_14 | overdue_30, overdue_30
      | final_warning, final_warning => String.eqb inv inv'
      | _, _ => false
      end
  | _ => false
  end.

Definition dispatches (t : ReminderType) (inv : string) (c : list LogLine)
  : nat :=
  List.length (filter (isDispatch t inv) c).

(** ** Sample data *)

Definition sampleInvoice (due : option Z) : InvoiceReminderData := {|
  Invoice.invoiceId := "F-2024-001";
  Invoice.clientId := "client_1";
  Invoice.clientName := "Ana";
  Invoice.clientEmail := "ana@example.com";
  Invoice.amount := 1500%Q;
  Invoice.dueDate := due;
  Invoice.caseTitle := None
|}.

Definition defaultService : CollectionService :=
  {| config := DEFAULT_CONFIG; reminders := [] |}.

Definition sampleToday : Z := 20000 * msPerDay + 36000000.

Definition mockEnv (enabled : bool) (t : Z) : Env EmailService.State := {|
  time := t;
  console := [];
  mail := {| EmailService.isEnabled := enabled;
             EmailService.randomId := fun _ => "k3j9x0q1z"%string;
             EmailService.drawn := 0 |}
|}.

(** A notifier whose promise always rejects. *)
Definition rejectingMail (p : Email.Payload) : M unit Email.Response :=
  fun w => (Rejected "network down"%string, w).

(** ** Further specification-side definitions *)

(** [new Date (invoice.dueDate)] is a valid date. *)
Definition hasValidDue (invoice : InvoiceReminderData) : bool :=
  match Invoice.dueDate invoice with Some _ => true | None => false end.

(** The console lines [sendReminder] writes for the reminders of an invoice
    that are due at [t], and for those of a batch. *)
Definition dispatchLines (this : CollectionService) (t : Z)
  (invoice : InvoiceReminderData) : list LogLine :=
  map (fun r => CollectionSending (type r) (Invoice.invoiceId invoice))
      (filter (dueAt t) (planAt this invoice t)).

Definition cycleLines (this : CollectionService) (t : Z)
  (invoices : list InvoiceReminderData) : list LogLine :=
  flat_map (dispatchLines this t) invoices.

(** The calendar day (UTC) of a time value. *)
Definition dayOf (t : Z) : Z := t / msPerDay.

Definition isDueSoon (r : Reminder) : bool :=
  match type r with due_soon => true | _ => false end.

(** A reminder without its [scheduledFor]. *)
Definition withoutSchedule (r : Reminder)
  : string * string * string * string * ReminderType * option Z
    * ReminderStatus.t * string :=
  (id r, invoiceId r, clientId r, clientEmail r, type r, sentAt r, status r,
   template r).

(** ** [setConfig] with a partial configuration

    [setConfig (config: Partial<ReminderConfig>)] overlays the fields that
    are present on the current configuration, [{ ...this.config, ...config }];
    an absent field is [None]. *)
Record PartialReminderConfig : Type := {
  daysBeforeDue_opt : option (list Z);
  daysAfterDue_opt : option (list Z);
  enableEmail_opt : option bool;
  enablePush_opt : option bool;
  maxReminders_opt : option Z
}.

Definition orElse {A : Type} (o : option A) (d : A) : A :=
  match o with Some a => a | None => d end.

Definition spreadConfig (c : ReminderConfig) (p : PartialReminderConfig)
  : ReminderConfig := {|
  daysBeforeDue := orElse (daysBeforeDue_opt p) (daysBeforeDue c);
  daysAfterDue := orElse (daysAfterDue_opt p) (daysAfterDue c);
  enableEmail := orElse (enableEmail_opt p) (enableEmail c);
  enablePush := orElse (enablePush_opt p) (enablePush c);
  maxReminders := orElse (maxReminders_opt p) (maxReminders c)
|}.

Definition setConfigPartial (this : CollectionService)
  (p : PartialReminderConfig) : CollectionService :=
  setConfig this (spreadConfig (config this) p).



(** ** The hook [useEmailNotifications] (hooks/useEmailNotifications.ts)

    [canSendTemplate] as a function of the preferences the callback closes
    over. A template that is no key of [templateMap] gives a falsy result,
    here [false]. *)
Module EmailNotifications.

Record EmailPreferences : Type := {
  enabled : bool;
  cases : bool;
  invoices : bool;
  hearings : bool;
  messages : bool;
  documents : bool;
  marketing : bool
}.

Definition DEFAULT_PREFERENCES : EmailPreferences := {|
  enabled := true;
  cases := true;
  invoices := true;
  hearings := true;
  messages := true;
  documents := true;
  marketing := false
|}.

Inductive PrefKey : Type :=
| key_cases | key_invoices | key_hearings | key_messages | key_documents.

Definition templateMap (template : string) : option PrefKey :=
  if String.eqb template "welcome" then Some key_cases
  else if String.eqb template "invoice_created" then Some key_invoices
  else if String.eqb template "invoice_paid" then Some key_invoices
  else if String.eqb template "invoice_overdue" then Some key_invoices
  else if String.eqb template "case_update" then Some key_cases
  else if String.eqb template "new_message" then Some key_messages
  else if String.eqb template "hearing_reminder" then Some key_hearings
  else if String.eqb template "document_available" then Some key_documents
  else if String.eqb template "payment_reminder" then Some key_invoices
  else None.

Definition preference (preferences : EmailPreferences) (k : PrefKey) : bool :=
  match k with
  | key_cases => cases preferences
  | key_invoices => invoices preferences
  | key_hearings => hearings preferences
  | key_messages => messages preferences
  | key_documents => documents preferences
  end.

Definition canSendTemplate (preferences : EmailPreferences)
  (template : string) : bool :=
  if negb (enabled preferences) then false
  else match templateMap template with
       | Some prefKey => preference preferences prefKey
       | None => false
       end.

End EmailNotifications.

(** ** Custom reports of [ReportsService] (services/reportsService.ts)

    The service keeps [customReports] in memory and writes the whole list
    under the key [custom_reports] of [localStorage] after each change.
    [stored] is the list last handed to [JSON.stringify] and written there,
    [None] while the key is absent; the JSON text and reading it back
    ([getCustomReports]) are not modelled. [Filters] stands for
    [Record<string, unknown>]. *)
Module Reports.

Inductive ReportType : Type := lawyer | case | financial | operational.

Section WithFilters.

Variable Filters : Type.

Record CustomReport : Type := {
  id : string;
  name : string;
  description : string;
  type : ReportType;
  filters : Filters;
  columns : list string;
  groupBy : option string;
  createdAt : Z;
  lastRunAt : option Z
}.

(** [Omit<CustomReport, 'id' | 'createdAt'>] *)
Record ReportDraft : Type := {
  draft_name : string;
  draft_description : string;
  draft_type : ReportType;
  draft_filters : Filters;
  draft_columns : list string;
  draft_groupBy : option string;
  draft_lastRunAt : option Z
}.

Record State : Type := {
  customReports : list CustomReport;
  stored : option (list CustomReport)
}.

(** [createCustomReport], called when the clock reads [dateNow]. *)
Definition createCustomReport (dateNow : Z) (report : ReportDraft)
  (st : State) : CustomReport * State :=
  let newReport := {|
    id := ("report_" ++ numToString dateNow)%string;
    name := draft_name report;
    description := draft_description report;
    type := draft_type report;
    filters := draft_filters report;
    columns := draft_columns report;
    groupBy := draft_groupBy report;
    createdAt := dateNow;
    lastRunAt := draft_lastRunAt report
  |} in
  let reports := customReports st ++ [newReport] in
  (newReport, {| customReports := reports; stored := Some reports |}).

(** [arr.find (r => r.id === reportId)] *)
Definition findReport (reportId : string) (l : list CustomReport)
  : option CustomReport :=
  find (fun r => String.eqb (id r) reportId) l.

(** [arr.findIndex (r => r.id === reportId)]; [None] is -1. *)
Fixpoint findIndex (reportId : string) (l : list CustomReport) : option nat :=
  match l with
  | [] => None
  | r :: rest =>
      if String.eqb (id r) reportId then Some O
      else match findIndex reportId rest with
           | Some i => Some (S i)
           | None => None
           end
  end.

(** [arr.splice (index, 1)] *)
Definition splice1 (index : nat) (l : list CustomReport) : list CustomReport :=
  firstn index l ++ skipn (S index) l.

Definition deleteCustomReport (reportId : string) (st : State)
  : bool * State :=
  match findIndex reportId (customReports st) with
  | Some index =>
      let reports := splice1 index (customReports st) in
      (true, {| customReports := reports; stored := Some reports |})
  | None => (false, st)
  end.

Record MockRow : Type := {
  row_id : Z; row_name : string; row_billed : Z; row_hours : Z; row_rate : Z
}.

Record ReportResult : Type := {
  result_columns : list string;
  result_rows : list MockRow;
  totalBilled : Z;
  totalHours : Z;
  averageRate : Z
}.

Definition mockRows : list MockRow :=
  [ {| row_id := 1; row_name := "María González"; row_billed := 45000;
       row_hours := 320; row_rate := 140 |};
    {| row_id := 2; row_name := "Carlos Ruiz"; row_billed := 38000;
       row_hours := 280; row_rate := 136 |};
    {| row_id := 3; row_name := "Ana López"; row_billed := 52000;
       row_hours := 350; row_rate := 149 |} ].

(** [executeCustomReport]: rejects when no report has the id, otherwise
    resolves after the 500 ms of its timer. *)
Definition executeCustomReport (MailState : Type) (st : State)
  (reportId : string) : M MailState ReportResult :=
  fun w =>
    match findReport reportId (customReports st) with
    | None => (Rejected "Report not found"%string, w)
    | Some report =>
        (Resolved {| result_columns := columns report;
                     result_rows := mockRows;
                     totalBilled := 135000;
                     totalHours := 950;
                     averageRate := 142 |},
         {| time := time w + 500; console := console w; mail := mail w |})
    end.

End WithFilters.

Arguments id {Filters} _.
Arguments columns {Filters} _.
Arguments customReports {Filters} _.
Arguments stored {Filters} _.
Arguments createCustomReport {Filters} _ _ _.
Arguments findReport {Filters} _ _.
Arguments findIndex {Filters} _ _.
Arguments splice1 {Filters} _ _.
Arguments deleteCustomReport {Filters} _ _.
Arguments executeCustomReport {Filters} _ _ _ _.
Arguments draft_columns {Filters} _.

Definition sampleDraft (cols : list string) : ReportDraft unit := {|
  draft_name := "Monthly billing";
  draft_description := "Billing by lawyer";
  draft_type := financial;
  draft_filters := tt;
  draft_columns := cols;
  draft_groupBy := None;
  draft_lastRunAt := None
|}.

Definition emptyState : State unit :=
  {| customReports := []; stored := None |}.

End Reports.

(** ** The planner, loop by loop *)

Lemma fold_pushBefore (invoice : InvoiceReminderData) (today : Z)
  (dud : option Z) (ds : list Z) (acc : list Reminder) :
  fold_left (pushBefore invoice today dud) ds acc =
  acc ++ match dud with
         | Some n => map (beforeReminder invoice today n)
                         (filter (qualifiesBefore dud) ds)
         | None => []
         end.
Proof.
  revert acc. induction ds as [|d ds IH]; intro acc; simpl.
  - destruct dud; now rewrite app_nil_r.
  - rewrite IH. destruct dud as [n|]; simpl; [|reflexivity].
    destruct (d <=? n); simpl; [|reflexivity].
    now rewrite <- app_assoc.
Qed.

Lemma fold_pushAfter (invoice : InvoiceReminderData)
  (dud : option Z) (ds : list Z) (acc : list Reminder) :
  fold_left (pushAfter invoice dud) ds acc =
  acc ++ match Invoice.dueDate invoice with
         | Some due => map (afterReminder invoice due)
                           (filter (qualifiesAfter dud) ds)
         | None => []
         end.
Proof.
  revert acc. induction ds as [|d ds IH]; intro acc; simpl.
  - destruct (Invoice.dueDate invoice); now rewrite app_nil_r.
  - rewrite IH. unfold pushAfter, qualifiesAfter.
    destruct dud as [n|], (Invoice.dueDate invoice) as [due|]; simpl;
      try reflexivity.
    destruct (n <? - d); simpl; [|reflexivity]. now rewrite <- app_assoc.
Qed.

Lemma planAt_unsliced (this : CollectionService)
  (invoice : InvoiceReminderData) (today : Z) :
  planAt this invoice today =
  slice0 (unsliced this invoice today) (maxReminders (config this)).
Proof.
  unfold planAt, unsliced. rewrite fold_pushAfter, fold_pushBefore.
  unfold daysUntilDue. destruct (Invoice.dueDate invoice); reflexivity.
Qed.

Lemma In_firstn {A : Type} (n : nat) (l : list A) (x : A) :
  In x (firstn n l) -> In x l.
Proof.
  revert n. induction l as [|y l IH]; intros [|n]; simpl; try tauto.
  intros [E|H]; [now left | right; eauto].
Qed.

(** [calculateReminders] is [planAt] at the reading of the clock. *)
Lemma calculateReminders_planAt (MailState : Type) (this : CollectionService)
  (invoice : InvoiceReminderData) (w : Env MailState) :
  calculateReminders this invoice w
  = (Resolved (planAt this invoice (time w)), w).
Proof. reflexivity. Qed.

Lemma slice0_incl {A : Type} (l : list A) (e : Z) (x : A) :
  In x (slice0 l e) -> In x l.
Proof. unfold slice0. apply In_firstn. Qed.

Lemma slice0_all {A : Type} (l : list A) (e : Z) :
  Z.of_nat (List.length l) <= e -> slice0 l e = l.
Proof.
  intro H. unfold slice0.
  assert (E : (e <? 0) = false) by (apply Z.ltb_ge; lia).
  rewrite E. apply firstn_all2. lia.
Qed.

Lemma slice0_length {A : Type} (l : list A) (e : Z) :
  0 <= e -> Z.of_nat (List.length (slice0 l e)) <= e.
Proof.
  intro H. unfold slice0.
  assert (E : (e <? 0) = false) by (apply Z.ltb_ge; lia).
  rewrite E, length_firstn. lia.
Qed.

Lemma slice0_map {A B : Type} (f : A -> B) (l : list A) (e : Z) :
  map f (slice0 l e) = slice0 (map f l) e.
Proof. unfold slice0. now rewrite length_map, <- firstn_map. Qed.

Lemma unsliced_types (this : CollectionService)
  (invoice : InvoiceReminderData) (today : Z) :
  map type (unsliced this invoice today) =
  offsetTiers (config this) (daysUntilDue (Invoice.dueDate invoice) today).
Proof.
  unfold unsliced, offsetTiers, daysUntilDue.
  destruct (Invoice.dueDate invoice) as [due|]; simpl.
  - rewrite map_app, !map_map. reflexivity.
  - induction (daysBeforeDue (config this)); simpl.
    + induction (daysAfterDue (config this)); simpl; auto.
    + assumption.
Qed.

Lemma NoDup_firstn {A : Type} (n : nat) (l : list A) :
  NoDup l -> NoDup (firstn n l).
Proof.
  revert n. induction l as [|x l IH]; intros [|n] H; simpl;
    try constructor.
  - inversion H; subst. intro Hin. apply In_firstn in Hin. contradiction.
  - inversion H; subst. now apply IH.
Qed.

Lemma filter_nothing {A : Type} (f : A -> bool) (l : list A) :
  Forall (fun x => f x = false) l -> filter f l = [].
Proof.
  induction 1 as [|x l Hx _ IH]; simpl; [reflexivity|]. now rewrite Hx.
Qed.

Lemma filter_everything {A : Type} (f : A -> bool) (l : list A) :
  Forall (fun x => f x = true) l -> filter f l = l.
Proof.
  induction 1 as [|x l Hx _ IH]; simpl; [reflexivity|]. now rewrite Hx, IH.
Qed.

Lemma afterType_not_due_soon (days : Z) : afterType days <> due_soon.
Proof.
  unfold afterType.
  destruct (7 <=? days), (14 <=? days), (30 <=? days); discriminate.
Qed.

Lemma msPerDay_pos : 0 < msPerDay.
Proof. reflexivity. Qed.

(** ** Planner: tiers (C2) *)

(** C2, as the code has it: the tiers of a plan are the tiers of the
    qualifying offsets, one event per offset in the order of the
    configuration, cut by [slice (0, maxReminders)]; events of one tier are not
    merged. So a plan has no two events of one tier whenever no two
    qualifying offsets share a tier; and when [slice] cuts nothing (there are
    at most [maxReminders] qualifying offsets), exactly then. *)
Theorem calculateReminders_one_event_per_offset
  (this : CollectionService) (invoice : InvoiceReminderData) (today : Z) :
  let tiers :=
    offsetTiers (config this) (daysUntilDue (Invoice.dueDate invoice) today) in
  map type (planAt this invoice today)
  = slice0 tiers (maxReminders (config this))
  /\ (NoDup tiers -> NoDup (map type (planAt this invoice today)))
  /\ (Z.of_nat (List.length tiers) <= maxReminders (config this) ->
      (NoDup (map type (planAt this invoice today)) <-> NoDup tiers)).
Proof.
  cbv zeta. rewrite planAt_unsliced, slice0_map, unsliced_types.
  split; [reflexivity|]. split.
  - intro H. unfold slice0. now apply NoDup_firstn.
  - intro H. rewrite slice0_all by exact H. tauto.
Qed.

Lemma calculateReminders_one_event_per_offset_witness :
  NoDup (map type (planAt defaultService
                     (sampleInvoice (Some (addDays sampleToday (-20))))
                     sampleToday)).
Proof.
  apply (proj1 (proj2 (calculateReminders_one_event_per_offset
                         defaultService
                         (sampleInvoice (Some (addDays sampleToday (-20))))
                         sampleToday))).
  vm_compute. repeat constructor; simpl; intuition discriminate.
Defined.

(** C2 fails as stated: with the default offsets [3, 1] an invoice due in
    three days gets two [due_soon] events. *)
Lemma calculateReminders_repeats_tier :
  ~ NoDup (map type (planAt defaultService
                       (sampleInvoice (Some (addDays sampleToday 3)))
                       sampleToday)).
Proof.
  vm_compute. intro H. inversion H as [|x l Hin _]; subst.
  apply Hin. now left.
Qed.

(** ** Planner: the two scenarios (C3, C4) *)

(** C3, as the code has it: three days before the due date, with before-due
    offsets [3, 1], no after-due offset below -3 and room for two reminders,
    the plan is two [due_soon] events, one per offset: the first scheduled
    for today, the second two days later, both with the standard template. *)
Theorem calculateReminders_three_days_before
  (this : CollectionService) (invoice : InvoiceReminderData) (today : Z)
  (Hbefore : daysBeforeDue (config this) = [3; 1])
  (Hdue : daysUntilDue (Invoice.dueDate invoice) today = Some 3)
  (Hafter : Forall (fun a => -3 <= a) (daysAfterDue (config this)))
  (Hmax : 2 <= maxReminders (config this)) :
  exists r1 r2,
    planAt this invoice today = [r1; r2]
    /\ type r1 = due_soon /\ scheduledFor r1 = today
    /\ template r1 = "payment_reminder"%string
    /\ type r2 = due_soon /\ scheduledFor r2 = addDays today 2
    /\ template r2 = "payment_reminder"%string.
Proof.
  exists (beforeReminder invoice today 3 3), (beforeReminder invoice today 3 1).
  split; [|simpl; unfold addDays; repeat split; lia].
  rewrite planAt_unsliced. unfold unsliced. unfold daysUntilDue in Hdue.
  destruct (Invoice.dueDate invoice) as [due|]; [|discriminate].
  injection Hdue as Hn. rewrite Hn, Hbefore.
  rewrite (filter_nothing (qualifiesAfter (Some 3))).
  - simpl. apply slice0_all. simpl. lia.
  - eapply Forall_impl; [|exact Hafter]. simpl. intros a Ha.
    apply Z.ltb_ge. lia.
Qed.

Lemma calculateReminders_three_days_before_witness :
  exists r1 r2,
    planAt defaultService (sampleInvoice (Some (addDays sampleToday 3)))
           sampleToday = [r1; r2]
    /\ type r1 = due_soon /\ scheduledFor r1 = sampleToday
    /\ template r1 = "payment_reminder"%string
    /\ type r2 = due_soon /\ scheduledFor r2 = addDays sampleToday 2
    /\ template r2 = "payment_reminder"%string.
Proof.
  apply calculateReminders_three_days_before.
  - reflexivity.
  - reflexivity.
  - simpl. repeat constructor; lia.
  - simpl. lia.
Defined.

(** C3 fails as stated: the plan of that invoice is not a single event. *)
Lemma calculateReminders_three_days_before_not_single :
  ~ exists r,
      planAt defaultService (sampleInvoice (Some (addDays sampleToday 3)))
             sampleToday = [r]
      /\ type r = due_soon /\ scheduledFor r = sampleToday
      /\ template r = "payment_reminder"%string.
Proof.
  intros [r [H _]]. vm_compute in H. discriminate H.
Qed.

(** C4, as the code has it: ten days after the due date, with after-due
    offsets [1, 7, 14, 30], no before-due offset of -10 or less and room for
    two reminders, the plan is two events, one per offset passed: an
    [overdue_1] event scheduled for the due date plus 1 day and an
    [overdue_7] event scheduled for the due date plus 7 days. *)
Theorem calculateReminders_ten_days_overdue
  (this : CollectionService) (invoice : InvoiceReminderData) (today due : Z)
  (Hafter : daysAfterDue (config this) = [1; 7; 14; 30])
  (Hdate : Invoice.dueDate invoice = Some due)
  (Hdue : ceilDays (due - today) = -10)
  (Hbefore : Forall (fun d => -10 < d) (daysBeforeDue (config this)))
  (Hmax : 2 <= maxReminders (config this)) :
  exists r1 r2,
    planAt this invoice today = [r1; r2]
    /\ type r1 = overdue_1 /\ scheduledFor r1 = addDays due 1
    /\ template r1 = "invoice_overdue"%string
    /\ type r2 = overdue_7 /\ scheduledFor r2 = addDays due 7
    /\ template r2 = "invoice_overdue"%string.
Proof.
  exists (afterReminder invoice due 1), (afterReminder invoice due 7).
  split; [|simpl; repeat split; reflexivity].
  rewrite planAt_unsliced. unfold unsliced. rewrite Hdate. cbv zeta.
  rewrite Hdue, Hafter.
  rewrite (filter_nothing (qualifiesBefore (Some (-10)))).
  - simpl. apply slice0_all. simpl. lia.
  - eapply Forall_impl; [|exact Hbefore]. simpl. intros d Hd.
    apply Z.leb_gt. lia.
Qed.

Lemma calculateReminders_ten_days_overdue_witness :
  exists r1 r2,
    planAt defaultService (sampleInvoice (Some (addDays sampleToday (-10))))
           sampleToday = [r1; r2]
    /\ type r1 = overdue_1
    /\ scheduledFor r1 = addDays (addDays sampleToday (-10)) 1
    /\ template r1 = "invoice_overdue"%string
    /\ type r2 = overdue_7
    /\ scheduledFor r2 = addDays (addDays sampleToday (-10)) 7
    /\ template r2 = "invoice_overdue"%string.
Proof.
  apply calculateReminders_ten_days_overdue.
  - reflexivity.
  - reflexivity.
  - reflexivity.
  - simpl. repeat constructor; lia.
  - simpl. lia.
Defined.

(** C4 fails as stated: the plan of that invoice is not a single event. *)
Lemma calculateReminders_ten_days_overdue_not_single :
  ~ exists r,
      planAt defaultService (sampleInvoice (Some (addDays sampleToday (-10))))
             sampleToday = [r]
      /\ type r = overdue_7
      /\ scheduledFor r = addDays (addDays sampleToday (-10)) 7.
Proof.
  intros [r [H _]]. vm_compute in H. discriminate H.
Qed.

(** ** Planner: invoices not yet in the reminder window (C5) *)

Lemma slice0_nonempty {A : Type} (l : list A) (e : Z) :
  l <> [] -> 1 <= e -> slice0 l e <> [].
Proof.
  intros Hl He. unfold slice0.
  assert (E : (e <? 0) = false) by (apply Z.ltb_ge; lia).
  rewrite E. destruct l as [|x l]; [congruence|].
  destruct (Z.to_nat (Z.min e (Z.of_nat (List.length (x :: l))))) eqn:En.
  - simpl List.length in En. lia.
  - simpl. discriminate.
Qed.

(** C5, as the code has it: when [daysUntilDue] is above every before-due
    offset (offsets of both lists non-negative), the plan is one [due_soon]
    event per before-due offset, cut by [slice (0, maxReminders)], and each of
    them is scheduled strictly after today. With [maxReminders >= 1] the plan
    is therefore not empty. *)
Theorem calculateReminders_before_window
  (this : CollectionService) (invoice : InvoiceReminderData) (today n : Z)
  (Hne : daysBeforeDue (config this) <> [])
  (Hdue : daysUntilDue (Invoice.dueDate invoice) today = Some n)
  (Hmax : Forall (fun d => d < n) (daysBeforeDue (config this)))
  (Hb : Forall (fun d => 0 <= d) (daysBeforeDue (config this)))
  (Ha : Forall (fun a => 0 <= a) (daysAfterDue (config this))) :
  planAt this invoice today
  = slice0 (map (beforeReminder invoice today n) (daysBeforeDue (config this)))
           (maxReminders (config this))
  /\ Forall (fun r => type r = due_soon /\ today < scheduledFor r)
            (planAt this invoice today)
  /\ (1 <= maxReminders (config this) -> planAt this invoice today <> []).
Proof.
  assert (Hn : 0 < n).
  { destruct (daysBeforeDue (config this)) as [|d ds]; [congruence|].
    inversion Hmax; inversion Hb; subst. lia. }
  assert (E : planAt this invoice today
              = slice0 (map (beforeReminder invoice today n)
                            (daysBeforeDue (config this)))
                       (maxReminders (config this))).
  { rewrite planAt_unsliced. unfold unsliced. unfold daysUntilDue in Hdue.
    destruct (Invoice.dueDate invoice) as [due|]; [|discriminate].
    injection Hdue as Hdue. cbv zeta. rewrite Hdue.
    rewrite (filter_nothing (qualifiesAfter (Some n))).
    - rewrite filter_everything, app_nil_r; [reflexivity|].
      eapply Forall_impl; [|exact Hmax]. simpl. intros d Hd.
      apply Z.leb_le. lia.
    - eapply Forall_impl; [|exact Ha]. simpl. intros a H0.
      apply Z.ltb_ge. lia. }
  split; [exact E|]. split.
  - rewrite E. apply Forall_forall. intros r Hr.
    apply slice0_incl, in_map_iff in Hr. destruct Hr as [d [<- Hd]].
    rewrite Forall_forall in Hmax. specialize (Hmax d Hd).
    simpl. split; [reflexivity|]. unfold addDays.
    pose proof msPerDay_pos. nia.
  - intro H1. rewrite E. apply slice0_nonempty; [|exact H1].
    destruct (daysBeforeDue (config this)); [congruence|discriminate].
Qed.

Lemma calculateReminders_before_window_witness :
  Forall (fun r => type r = due_soon /\ sampleToday < scheduledFor r)
         (planAt defaultService
            (sampleInvoice (Some (addDays sampleToday 10))) sampleToday).
Proof.
  apply (fun H1 H2 H3 H4 H5 =>
           proj1 (proj2 (calculateReminders_before_window defaultService
                           (sampleInvoice (Some (addDays sampleToday 10)))
                           sampleToday 10 H1 H2 H3 H4 H5))).
  - discriminate.
  - reflexivity.
  - simpl. repeat constructor; lia.
  - simpl. repeat constructor; lia.
  - simpl. repeat constructor; lia.
Defined.

(** C5 fails as stated: ten days before the due date, above both default
    offsets 3 and 1, the plan is not empty. *)
Lemma calculateReminders_before_window_not_empty :
  daysBeforeDue (config defaultService) <> []
  /\ daysUntilDue (Invoice.dueDate
                     (sampleInvoice (Some (addDays sampleToday 10))))
                  sampleToday = Some 10
  /\ Forall (fun d => d < 10) (daysBeforeDue (config defaultService))
  /\ planAt defaultService (sampleInvoice (Some (addDays sampleToday 10)))
            sampleToday <> [].
Proof.
  split; [discriminate|]. split; [reflexivity|].
  split; [simpl; repeat constructor; lia|].
  vm_compute. discriminate.
Qed.

(** ** Planner: the urgent template (C6) *)

(** C6, as the code has it: a [due_soon] event of a plan comes from a
    before-due offset [d] with [d <= daysUntilDue], and it carries the urgent
    template if and only if [daysUntilDue <= 1], whatever [d] is; so an event
    of an offset [d > 1] carries the standard template, and an event of an
    offset [d <= 1] carries the urgent one only when the invoice is due within
    a day. *)
Theorem calculateReminders_urgent_template
  (this : CollectionService) (invoice : InvoiceReminderData) (today : Z)
  (r : Reminder)
  (Hin : In r (planAt this invoice today))
  (Htype : type r = due_soon) :
  exists n d,
    daysUntilDue (Invoice.dueDate invoice) today = Some n
    /\ In d (daysBeforeDue (config this)) /\ d <= n
    /\ r = beforeReminder invoice today n d
    /\ (template r = "payment_reminder_urgent"%string <-> n <= 1)
    /\ (template r = "payment_reminder"%string <-> 1 < n)
    /\ (1 < d -> template r = "payment_reminder"%string).
Proof.
  rewrite planAt_unsliced in Hin. apply slice0_incl in Hin.
  unfold unsliced in Hin. unfold daysUntilDue.
  destruct (Invoice.dueDate invoice) as [due|]; [|contradiction].
  cbv zeta in Hin. apply in_app_or in Hin. destruct Hin as [Hin|Hin].
  - apply in_map_iff in Hin. destruct Hin as [d [<- Hd]].
    apply filter_In in Hd. destruct Hd as [Hd Hq]. simpl in Hq.
    apply Z.leb_le in Hq.
    exists (ceilDays (due - today)), d.
    repeat split; auto; simpl;
      destruct (Z.leb_spec (ceilDays (due - today)) 1);
      intros; try reflexivity; try discriminate; lia.
  - apply in_map_iff in Hin. destruct Hin as [d [<- _]].
    simpl in Htype. now apply afterType_not_due_soon in Htype.
Qed.

Lemma calculateReminders_urgent_template_witness :
  exists n d,
    daysUntilDue (Invoice.dueDate
                    (sampleInvoice (Some (addDays sampleToday 1))))
                 sampleToday = Some n
    /\ In d (daysBeforeDue (config defaultService)) /\ d <= n
    /\ beforeReminder (sampleInvoice (Some (addDays sampleToday 1)))
                      sampleToday 1 1
       = beforeReminder (sampleInvoice (Some (addDays sampleToday 1)))
                        sampleToday n d
    /\ (template (beforeReminder
                    (sampleInvoice (Some (addDays sampleToday 1)))
                    sampleToday 1 1)
        = "payment_reminder_urgent"%string <-> n <= 1)
    /\ (template (beforeReminder
                    (sampleInvoice (Some (addDays sampleToday 1)))
                    sampleToday 1 1)
        = "payment_reminder"%string <-> 1 < n)
    /\ (1 < d ->
        template (beforeReminder
                    (sampleInvoice (Some (addDays sampleToday 1)))
                    sampleToday 1 1)
        = "payment_reminder"%string).
Proof.
  apply (calculateReminders_urgent_template defaultService).
  - vm_compute. left. reflexivity.
  - reflexivity.
Defined.

(** C6 fails as stated: three days before the due date the event of the
    offset [d = 1] is emitted with the standard template, not the urgent
    one. *)
Lemma calculateReminders_offset_one_not_urgent :
  let invoice := sampleInvoice (Some (addDays sampleToday 3)) in
  let r := beforeReminder invoice sampleToday 3 1 in
  In 1 (daysBeforeDue (config defaultService))
  /\ In r (planAt defaultService invoice sampleToday)
  /\ type r = due_soon
  /\ ~ (template r = "payment_reminder_urgent"%string <-> 1 <= 1).
Proof.
  cbv zeta. split; [simpl; tauto|]. split; [vm_compute; tauto|].
  split; [reflexivity|]. intros [_ H].
  specialize (H (Z.le_refl 1)). vm_compute in H. discriminate H.
Qed.

(** ** Planner: the bound (C7) *)

(** C7, as the code has it: for a [maxReminders] that is not negative the
    plan has at most [maxReminders] events, and none when it is 0. *)
Theorem calculateReminders_at_most_max
  (this : CollectionService) (invoice : InvoiceReminderData) (today : Z)
  (Hmax : 0 <= maxReminders (config this)) :
  Z.of_nat (List.length (planAt this invoice today))
  <= maxReminders (config this)
  /\ (maxReminders (config this) = 0 -> planAt this invoice today = []).
Proof.
  rewrite planAt_unsliced.
  pose proof (slice0_length (unsliced this invoice today) _ Hmax) as H.
  split; [exact H|]. intro E. rewrite E in H |- *.
  destruct (slice0 (unsliced this invoice today) 0); [reflexivity|].
  simpl in H. lia.
Qed.

Lemma calculateReminders_at_most_max_witness :
  Z.of_nat (List.length
              (planAt defaultService
                 (sampleInvoice (Some (addDays sampleToday (-45))))
                 sampleToday)) <= 5.
Proof.
  apply (calculateReminders_at_most_max defaultService
           (sampleInvoice (Some (addDays sampleToday (-45)))) sampleToday).
  simpl. lia.
Defined.

(** C7 fails as stated: [slice (0, -1)] drops the last element only, so with
    [maxReminders = -1] the plan of an invoice 45 days overdue keeps three of
    its four events. *)
Lemma calculateReminders_negative_max :
  let this :=
    setConfig defaultService
      {| daysBeforeDue := [3; 1]; daysAfterDue := [1; 7; 14; 30];
         enableEmail := true; enablePush := true; maxReminders := -1 |} in
  ~ Z.of_nat (List.length
                (planAt this (sampleInvoice (Some (addDays sampleToday (-45))))
                        sampleToday))
    <= maxReminders (config this).
Proof.
  vm_compute. intro H. apply H. reflexivity.
Qed.

(** ** Planner: determinism (C8) *)

Lemma Forall2_firstn {A B : Type} (R : A -> B -> Prop) (n : nat)
  (l1 : list A) (l2 : list B) :
  Forall2 R l1 l2 -> Forall2 R (firstn n l1) (firstn n l2).
Proof.
  intro H. revert n. induction H as [|x y l1 l2 Hxy _ IH]; intros [|n];
    simpl; constructor; auto.
Qed.

Lemma Forall2_slice0 {A B : Type} (R : A -> B -> Prop) (e : Z)
  (l1 : list A) (l2 : list B) :
  Forall2 R l1 l2 -> Forall2 R (slice0 l1 e) (slice0 l2 e).
Proof.
  intro H. unfold slice0. rewrite (Forall2_length H).
  now apply Forall2_firstn.
Qed.

Lemma Forall2_map_same {A B C : Type} (R : B -> C -> Prop)
  (f : A -> B) (g : A -> C) (l : list A) :
  (forall x, In x l -> R (f x) (g x)) -> Forall2 R (map f l) (map g l).
Proof.
  induction l as [|x l IH]; intro H; simpl; constructor.
  - apply H. now left.
  - apply IH. intros y Hy. apply H. now right.
Qed.

(** C8, as the code has it: [calculateReminders] always resolves and leaves
    the environment as it found it. Two calls on the same service and invoice
    give the same list when the clock reads the same instant. When it only
    reads instants with the same [daysUntilDue], the two lists agree event by
    event in everything but [scheduledFor], and their events that are not
    [due_soon] are equal: a [due_soon] event is scheduled from the instant of
    the call. *)
Theorem calculateReminders_deterministic
  (MailState : Type) (this : CollectionService)
  (invoice : InvoiceReminderData) (w1 w2 : Env MailState) :
  exists p1 p2,
    calculateReminders this invoice w1 = (Resolved p1, w1)
    /\ calculateReminders this invoice w2 = (Resolved p2, w2)
    /\ (time w1 = time w2 -> p1 = p2)
    /\ (daysUntilDue (Invoice.dueDate invoice) (time w1)
        = daysUntilDue (Invoice.dueDate invoice) (time w2) ->
        Forall2 (fun r1 r2 =>
                   withoutSchedule r1 = withoutSchedule r2
                   /\ (isDueSoon r1 = false -> r1 = r2))
                p1 p2).
Proof.
  exists (planAt this invoice (time w1)), (planAt this invoice (time w2)).
  split; [reflexivity|]. split; [reflexivity|]. split.
  - intros ->. reflexivity.
  - intro Hd. rewrite !planAt_unsliced. apply Forall2_slice0.
    unfold unsliced. unfold daysUntilDue in Hd.
    destruct (Invoice.dueDate invoice) as [due|]; [|constructor].
    injection Hd as Hd. cbv zeta. rewrite <- Hd.
    apply Forall2_app.
    + apply Forall2_map_same. intros d _. split; [reflexivity|].
      discriminate.
    + apply Forall2_map_same. intros a _. split; reflexivity.
Qed.

Lemma calculateReminders_deterministic_witness :
  exists p1 p2,
    calculateReminders defaultService
      (sampleInvoice (Some (addDays sampleToday 3)))
      (mockEnv true sampleToday) = (Resolved p1, mockEnv true sampleToday)
    /\ calculateReminders defaultService
         (sampleInvoice (Some (addDays sampleToday 3)))
         (mockEnv false sampleToday)
       = (Resolved p2, mockEnv false sampleToday)
    /\ p1 = p2.
Proof.
  destruct (calculateReminders_deterministic EmailService.State defaultService
              (sampleInvoice (Some (addDays sampleToday 3)))
              (mockEnv true sampleToday) (mockEnv false sampleToday))
    as [p1 [p2 [E1 [E2 [H _]]]]].
  exists p1, p2. split; [exact E1|]. split; [exact E2|].
  apply H. reflexivity.
Defined.

(** C8 fails as stated: two calls on the same day, an hour before and an
    hour after the time of day of the due instant, give different lists: the
    first plans the standard reminder, the second the urgent one, and the
    scheduled dates differ. *)
Lemma calculateReminders_same_day_differs :
  let invoice := sampleInvoice (Some (addDays sampleToday 1)) in
  let w1 := mockEnv true (sampleToday - 3600000) in
  let w2 := mockEnv true (sampleToday + 3600000) in
  dayOf (time w1) = dayOf (time w2)
  /\ (exists p1 p2,
        calculateReminders defaultService invoice w1 = (Resolved p1, w1)
        /\ calculateReminders defaultService invoice w2 = (Resolved p2, w2)
        /\ map template p1 = ["payment_reminder"%string]
        /\ map template p2 = ["payment_reminder_urgent"%string]
        /\ p1 <> p2).
Proof.
  cbv zeta. split; [reflexivity|].
  eexists _, _. split; [reflexivity|]. split; [reflexivity|].
  split; [reflexivity|]. split; [reflexivity|].
  vm_compute. discriminate.
Qed.

(** ** The processor, step by step *)

Section Processor.

Variable MailState : Type.
Variable sendEmail : Email.Payload -> M MailState Email.Response.
Variable this : CollectionService.

Lemma sendReminder_cases (reminder : Reminder)
  (invoice : InvoiceReminderData) (w : Env MailState) :
  sendReminder sendEmail this reminder invoice w =
  let w0 :=
    withLog w (CollectionSending (type reminder)
                                 (Invoice.invoiceId invoice)) in
  if enableEmail (config this) then
    match sendEmail (reminderPayload reminder invoice (time w)) w0 with
    | (Resolved _, w1) => (Resolved (markSent reminder (time w1), true), w1)
    | (Rejected e, w1) => (Rejected e, w1)
    end
  else (Resolved (markSent reminder (time w), true), w0).
Proof.
  unfold sendReminder, bind, log, now, ret. cbv zeta.
  destruct (enableEmail (config this)); [|reflexivity]. simpl.
  destruct (sendEmail _ _) as [[resp|e] w1]; reflexivity.
Qed.

Lemma processReminder_cases (invoice : InvoiceReminderData)
  (reminder : Reminder) (acc : Summary) (w : Env MailState) :
  processReminder sendEmail this invoice reminder acc w =
  if dueAt (time w) reminder then
    match sendReminder sendEmail this reminder invoice w with
    | (Resolved (_, true), w1) => (Resolved (incSent acc), w1)
    | (Resolved (_, false), w1) => (Resolved (incFailed acc), w1)
    | (Rejected e, w1) =>
        (Resolved (incFailed acc), withLog w1 (CollectionFailed e))
    end
  else (Resolved acc, w).
Proof.
  unfold processReminder, bind at 1, now, dueAt.
  destruct (isPending (status reminder) && (scheduledFor reminder <=? time w));
    [|reflexivity].
  unfold tryCatch, bind.
  destruct (sendReminder sendEmail this reminder invoice w)
    as [[[r' [|]]|e] w1]; reflexivity.
Qed.







Lemma processInvoices_app (invoices1 invoices2 : list InvoiceReminderData)
  (acc : Summary) (w : Env MailState) :
  processInvoices sendEmail this (invoices1 ++ invoices2) acc w =
  bind (processInvoices sendEmail this invoices1 acc)
       (processInvoices sendEmail this invoices2) w.
Proof.
  revert acc w. induction invoices1 as [|i rest IH]; intros acc w; simpl.
  - reflexivity.
  - unfold bind, calculateReminders, now, ret. simpl.
    destruct (processReminders sendEmail this i (planAt this i (time w)) acc w)
      as [[a|e] w1]; [|reflexivity].
    rewrite IH. reflexivity.
Qed.

End Processor.

Lemma planAt_pending (this : CollectionService)
  (invoice : InvoiceReminderData) (today : Z) :
  Forall (fun r => status r = ReminderStatus.pending /\ sentAt r = None)
         (planAt this invoice today).
Proof.
  apply Forall_forall. intros r Hr.
  rewrite planAt_unsliced in Hr. apply slice0_incl in Hr.
  unfold unsliced in Hr.
  destruct (Invoice.dueDate invoice) as [due|]; [|contradiction].
  cbv zeta in Hr. apply in_app_or in Hr.
  destruct Hr as [Hr|Hr]; apply in_map_iff in Hr;
    destruct Hr as [d [<- _]]; split; reflexivity.
Qed.

Lemma dueAt_mono (t t' : Z) (r : Reminder) :
  t <= t' -> dueAt t r = true -> dueAt t' r = true.
Proof.
  unfold dueAt. intros Ht H. apply andb_true_iff in H. destruct H as [Hp Hs].
  apply andb_true_iff. split; [exact Hp|].
  apply Z.leb_le in Hs. apply Z.leb_le. lia.
Qed.

Lemma countDue_mono (t t' : Z) (rs : list Reminder) :
  t <= t' -> (countDue t rs <= countDue t' rs)%nat.
Proof.
  intro Ht. unfold countDue. induction rs as [|r rs IH]; simpl; [lia|].
  destruct (dueAt t r) eqn:E.
  - rewrite (dueAt_mono t t' r Ht E). simpl. lia.
  - destruct (dueAt t' r); simpl; lia.
Qed.

(** ** Processor: a notifier that resolves *)

Section ResolvingNotifier.

Variable MailState : Type.
Variable sendEmail : Email.Payload -> M MailState Email.Response.
Variable this : CollectionService.

(** The notifier resolves, and the clock does not run backwards in it. *)
Hypothesis sendEmail_resolves :
  forall p w, exists resp w',
    sendEmail p w = (Resolved resp, w') /\ time w <= time w'.

Lemma sendReminder_resolves (reminder : Reminder)
  (invoice : InvoiceReminderData) (w : Env MailState) :
  exists r' w1,
    sendReminder sendEmail this reminder invoice w = (Resolved (r', true), w1)
    /\ time w <= time w1.
Proof.
  rewrite sendReminder_cases. cbv zeta.
  destruct (enableEmail (config this)).
  - destruct (sendEmail_resolves
                (reminderPayload reminder invoice (time w))
                (withLog w (CollectionSending (type reminder)
                              (Invoice.invoiceId invoice))))
      as [resp [w1 [E Ht]]].
    rewrite E. eexists _, w1. split; [reflexivity|exact Ht].
  - eexists _, _. split; [reflexivity|]. simpl. lia.
Qed.

Lemma processReminder_sends (invoice : InvoiceReminderData)
  (reminder : Reminder) (acc : Summary) (w : Env MailState) :
  exists w1,
    processReminder sendEmail this invoice reminder acc w
    = (Resolved (if dueAt (time w) reminder then incSent acc else acc), w1)
    /\ time w <= time w1.
Proof.
  rewrite processReminder_cases.
  destruct (dueAt (time w) reminder).
  - destruct (sendReminder_resolves reminder invoice w) as [r' [w1 [E Ht]]].
    rewrite E. exists w1. split; [reflexivity|exact Ht].
  - exists w. split; [reflexivity|lia].
Qed.

Lemma processReminders_sends (invoice : InvoiceReminderData)
  (rs : list Reminder) (acc : Summary) (w : Env MailState) :
  exists s w1,
    processReminders sendEmail this invoice rs acc w = (Resolved s, w1)
    /\ time w <= time w1
    /\ failed s = failed acc
    /\ (sent acc + countDue (time w) rs <= sent s)%nat.
Proof.
  revert acc w. induction rs as [|r rs IH]; intros acc w.
  - exists acc, w. simpl. unfold ret, countDue. simpl.
    repeat split; lia.
  - destruct (processReminder_sends invoice r acc w) as [w1 [E1 Ht1]].
    destruct (IH (if dueAt (time w) r then incSent acc else acc) w1)
      as [s [w2 [E2 [Ht2 [Hf Hs]]]]].
    exists s, w2. simpl. unfold bind. rewrite E1, E2.
    pose proof (countDue_mono (time w) (time w1) rs Ht1) as Hm.
    split; [reflexivity|]. split; [lia|].
    unfold countDue in *. simpl.
    destruct (dueAt (time w) r); simpl in *; split; lia.
Qed.

Lemma processInvoices_sends (invoices : list InvoiceReminderData)
  (acc : Summary) (w : Env MailState) :
  exists s w1,
    processInvoices sendEmail this invoices acc w = (Resolved s, w1)
    /\ time w <= time w1
    /\ failed s = failed acc
    /\ (sent acc <= sent s)%nat.
Proof.
  revert acc w. induction invoices as [|i rest IH]; intros acc w.
  - exists acc, w. simpl. unfold ret. repeat split; lia.
  - destruct (processReminders_sends i (planAt this i (time w)) acc w)
      as [s1 [w1 [E1 [Ht1 [Hf1 Hs1]]]]].
    destruct (IH s1 w1) as [s [w2 [E2 [Ht2 [Hf2 Hs2]]]]].
    exists s, w2. simpl. unfold bind, calculateReminders, now, ret. simpl.
    rewrite E1, E2. repeat split; lia.
Qed.

(** C1, as the code has it: the service keeps no record of earlier
    dispatches, and nothing is skipped as already sent. In every cycle,
    whatever earlier cycles did, the cycle plans each invoice of the batch
    afresh at the moment it reaches it, with every event pending and without
    [sentAt]; and when the notifier resolves and the clock does not go back
    in it, the cycle resolves without a failure and the invoice adds to the
    count of sent at least the events of that plan that are due at that
    moment: the cycle up to and with the invoice counts that many more than
    the cycle up to it, and the whole cycle counts no less. *)
Theorem processPendingReminders_dispatches_every_cycle
  (invoices1 : list InvoiceReminderData) (invoice : InvoiceReminderData)
  (invoices2 : list InvoiceReminderData) (w : Env MailState) :
  exists s1 w1 s2 w2 s w',
    processPendingReminders sendEmail this invoices1 w = (Resolved s1, w1)
    /\ processPendingReminders sendEmail this (invoices1 ++ [invoice]) w
       = (Resolved s2, w2)
    /\ processPendingReminders sendEmail this
         (invoices1 ++ invoice :: invoices2) w = (Resolved s, w')
    /\ time w <= time w1
    /\ Forall (fun r => status r = ReminderStatus.pending /\ sentAt r = None)
              (planAt this invoice (time w1))
    /\ (sent s1 + countDue (time w1) (planAt this invoice (time w1))
        <= sent s2)%nat
    /\ (sent s2 <= sent s)%nat
    /\ failed s = 0%nat.
Proof.
  unfold processPendingReminders.
  destruct (processInvoices_sends invoices1 {| sent := 0; failed := 0 |} w)
    as [s1 [w1 [E1 [Ht1 [Hf1 _]]]]].
  destruct (processReminders_sends invoice (planAt this invoice (time w1))
              s1 w1) as [s2 [w2 [E2 [Ht2 [Hf2 Hs2]]]]].
  destruct (processInvoices_sends invoices2 s2 w2)
    as [s [w' [E3 [Ht3 [Hf3 Hs3]]]]].
  exists s1, w1, s2, w2, s, w'. split; [exact E1|]. split; [|split].
  - rewrite processInvoices_app. unfold bind at 1. rewrite E1.
    simpl. unfold bind, calculateReminders, now, ret. simpl.
    now rewrite E2.
  - rewrite processInvoices_app. unfold bind at 1. rewrite E1.
    simpl. unfold bind, calculateReminders, now, ret. simpl.
    now rewrite E2, E3.
  - split; [exact Ht1|]. split; [apply planAt_pending|].
    simpl in Hf1. repeat split; lia.
Qed.

End ResolvingNotifier.

Lemma processPendingReminders_dispatches_every_cycle_witness :
  exists s1 w1 s2 w2 s w',
    processPendingReminders EmailService.sendEmail defaultService
      [sampleInvoice (Some (addDays sampleToday 3))]
      (mockEnv true sampleToday) = (Resolved s1, w1)
    /\ processPendingReminders EmailService.sendEmail defaultService
         ([sampleInvoice (Some (addDays sampleToday 3))]
          ++ [sampleInvoice (Some (addDays sampleToday (-10)))])
         (mockEnv true sampleToday) = (Resolved s2, w2)
    /\ processPendingReminders EmailService.sendEmail defaultService
         ([sampleInvoice (Some (addDays sampleToday 3))]
          ++ sampleInvoice (Some (addDays sampleToday (-10))) :: [])
         (mockEnv true sampleToday) = (Resolved s, w')
    /\ time (mockEnv true sampleToday) <= time w1
    /\ Forall (fun r => status r = ReminderStatus.pending /\ sentAt r = None)
              (planAt defaultService
                 (sampleInvoice (Some (addDays sampleToday (-10)))) (time w1))
    /\ (sent s1
        + countDue (time w1)
            (planAt defaultService
               (sampleInvoice (Some (addDays sampleToday (-10)))) (time w1))
        <= sent s2)%nat
    /\ (sent s2 <= sent s)%nat
    /\ failed s = 0%nat.
Proof.
  apply (processPendingReminders_dispatches_every_cycle
           EmailService.State EmailService.sendEmail defaultService).
  intros p w. unfold EmailService.sendEmail.
  destruct (negb (EmailService.isEnabled (mail w))).
  - eexists _, _. split; [reflexivity|]. simpl. lia.
  - destruct (negb (EmailService.hasTemplate (Email.template p))).
    + eexists _, _. split; [reflexivity|]. simpl. lia.
    + eexists _, _. split; [reflexivity|]. simpl.
      unfold EmailService.networkDelay. lia.
Defined.

(** C1 fails as stated: two cycles a day apart over the same overdue invoice
    both dispatch its [overdue_1] event, and both count it as sent. *)
Lemma processPendingReminders_dispatches_twice :
  let invoice := sampleInvoice (Some (addDays sampleToday (-10))) in
  let run1 :=
    processPendingReminders EmailService.sendEmail defaultService [invoice]
      (mockEnv true sampleToday) in
  let nextDay :=
    {| time := time (snd run1) + msPerDay;
       console := console (snd run1);
       mail := mail (snd run1) |} in
  let run2 :=
    processPendingReminders EmailService.sendEmail defaultService [invoice]
      nextDay in
  fst run1 = Resolved {| sent := 2; failed := 0 |}
  /\ dispatches overdue_1 "F-2024-001" (console (snd run1)) = 1%nat
  /\ fst run2 = Resolved {| sent := 2; failed := 0 |}
  /\ dispatches overdue_1 "F-2024-001" (console (snd run2)) = 2%nat
  /\ ~ (dispatches overdue_1 "F-2024-001" (console (snd run2)) <= 1)%nat.
Proof.
  vm_compute. repeat split; try reflexivity. intro H.
  inversion H as [|m H1]. inversion H1.
Qed.

(** ** Processor: errors (C9) *)

Section RejectingNotifier.

Variable MailState : Type.
Variable sendEmail : Email.Payload -> M MailState Email.Response.
Variable this : CollectionService.
Hypothesis channel_on : enableEmail (config this) = true.
Hypothesis sendEmail_rejects :
  forall p w, exists e w', sendEmail p w = (Rejected e, w').

Lemma processReminders_all_fail (invoice : InvoiceReminderData)
  (rs : list Reminder) (acc : Summary) (w : Env MailState) :
  exists s w',
    processReminders sendEmail this invoice rs acc w = (Resolved s, w')
    /\ sent s = sent acc.
Proof.
  revert acc w. induction rs as [|r rs IH]; intros acc w.
  - exists acc, w. split; reflexivity.
  - simpl. unfold bind. rewrite processReminder_cases.
    destruct (dueAt (time w) r).
    + rewrite sendReminder_cases, channel_on. cbv zeta.
      destruct (sendEmail_rejects
                  (reminderPayload r invoice (time w))
                  (withLog w (CollectionSending (type r)
                                (Invoice.invoiceId invoice))))
        as [e [w1 E]].
      rewrite E. cbv beta iota.
      destruct (IH (incFailed acc) (withLog w1 (CollectionFailed e)))
        as [s [w2 [E2 H2]]].
      exists s, w2. split; [exact E2|exact H2].
    + apply IH.
Qed.

Lemma processInvoices_all_fail (invoices : list InvoiceReminderData)
  (acc : Summary) (w : Env MailState) :
  exists s w',
    processInvoices sendEmail this invoices acc w = (Resolved s, w')
    /\ sent s = sent acc.
Proof.
  revert acc w. induction invoices as [|i rest IH]; intros acc w.
  - exists acc, w. split; reflexivity.
  - destruct (processReminders_all_fail i (planAt this i (time w)) acc w)
      as [s1 [w1 [E1 H1]]].
    destruct (IH s1 w1) as [s [w2 [E2 H2]]].
    exists s, w2. simpl. unfold bind, calculateReminders, now, ret. simpl.
    rewrite E1, E2. split; [reflexivity|congruence].
Qed.

End RejectingNotifier.

Section MonotoneNotifier.

Variable MailState : Type.
Variable sendEmail : Email.Payload -> M MailState Email.Response.
Variable this : CollectionService.

(** The clock does not go back in the notifier, whether it resolves or
    rejects. *)
Hypothesis sendEmail_monotone :
  forall p w, time w <= time (snd (sendEmail p w)).





End MonotoneNotifier.



(** ** Processor: what counts as sent (C10) *)

(** C10: [sendReminder] logs the dispatch and then, with the email channel
    disabled, or with the channel enabled and [sendEmail] resolved with any
    response (also one with [success: false]), resolves with [true] and with
    the reminder mutated: its status is [sent] and its [sentAt] the current
    time, its other fields as they were. It rejects, before any mutation,
    only when [sendEmail] rejects. So one turn of the processor over a due
    reminder counts a failure exactly when the channel is enabled and
    [sendEmail] rejects. *)
Theorem sendReminder_reports_success
  (MailState : Type) (sendEmail : Email.Payload -> M MailState Email.Response)
  (this : CollectionService) (reminder : Reminder)
  (invoice : InvoiceReminderData) (w : Env MailState) :
  let w0 :=
    withLog w (CollectionSending (type reminder) (Invoice.invoiceId invoice)) in
  let payload := reminderPayload reminder invoice (time w) in
  let mutated (r' : Reminder) (t : Z) :=
    status r' = ReminderStatus.sent /\ sentAt r' = Some t
    /\ id r' = id reminder /\ invoiceId r' = invoiceId reminder
    /\ clientId r' = clientId reminder
    /\ clientEmail r' = clientEmail reminder
    /\ type r' = type reminder
    /\ scheduledFor r' = scheduledFor reminder
    /\ template r' = template reminder in
  (enableEmail (config this) = false ->
   exists r',
     sendReminder sendEmail this reminder invoice w = (Resolved (r', true), w0)
     /\ r' = markSent reminder (time w)
     /\ mutated r' (time w))
  /\ (forall resp w1,
        enableEmail (config this) = true ->
        sendEmail payload w0 = (Resolved resp, w1) ->
        exists r',
          sendReminder sendEmail this reminder invoice w
          = (Resolved (r', true), w1)
          /\ r' = markSent reminder (time w1)
          /\ mutated r' (time w1))
  /\ (forall e w1,
        enableEmail (config this) = true ->
        sendEmail payload w0 = (Rejected e, w1) ->
        sendReminder sendEmail this reminder invoice w = (Rejected e, w1))
  /\ (forall acc s w',
        dueAt (time w) reminder = true ->
        processReminder sendEmail this invoice reminder acc w
        = (Resolved s, w') ->
        (failed s = S (failed acc) <->
         enableEmail (config this) = true
         /\ exists e w1, sendEmail payload w0 = (Rejected e, w1))).
Proof.
  cbv zeta. split; [|split; [|split]].
  - intro H. rewrite sendReminder_cases, H. eexists. split; [reflexivity|].
    split; [reflexivity|]. simpl. repeat split; reflexivity.
  - intros resp w1 H E. rewrite sendReminder_cases, H. cbv zeta. rewrite E.
    eexists. split; [reflexivity|]. split; [reflexivity|].
    simpl. repeat split; reflexivity.
  - intros e w1 H E. rewrite sendReminder_cases, H. cbv zeta. now rewrite E.
  - intros acc s w' Hdue. rewrite processReminder_cases, Hdue.
    rewrite sendReminder_cases. cbv zeta.
    destruct (enableEmail (config this)).
    + destruct (sendEmail _ _) as [[resp|e] w1].
      * intro E. injection E as <- <-. simpl. split; [lia|].
        intros [_ [e [w2 H]]]. discriminate H.
      * intro E. injection E as <- <-. simpl. split; [|reflexivity].
        intros _. split; [reflexivity|]. now exists e, w1.
    + intro E. injection E as <- <-. simpl. split; [lia|].
      intros [H _]. discriminate H.
Qed.

Lemma sendReminder_reports_success_witness :
  let invoice := sampleInvoice (Some (addDays sampleToday (-10))) in
  let reminder := afterReminder invoice (addDays sampleToday (-10)) 1 in
  exists r',
    sendReminder EmailService.sendEmail defaultService reminder invoice
      (mockEnv false sampleToday)
    = (Resolved (r', true),
       withLog (withLog (mockEnv false sampleToday)
                  (CollectionSending overdue_1 "F-2024-001"))
               EmailDisabled)
    /\ status r' = ReminderStatus.sent
    /\ sentAt r' = Some sampleToday.
Proof.
  cbv zeta.
  destruct (proj1 (proj2 (sendReminder_reports_success
                            EmailService.State EmailService.sendEmail
                            defaultService
                            (afterReminder
                               (sampleInvoice (Some (addDays sampleToday (-10))))
                               (addDays sampleToday (-10)) 1)
                            (sampleInvoice (Some (addDays sampleToday (-10))))
                            (mockEnv false sampleToday)))
              {| Email.success := false; Email.messageId := "";
                 Email.timestamp := sampleToday; Email.preview := None |}
              (withLog (withLog (mockEnv false sampleToday)
                          (CollectionSending overdue_1 "F-2024-001"))
                       EmailDisabled)
              eq_refl eq_refl) as [r' [E [_ [Hs [Ha _]]]]].
  exists r'. split; [exact E|]. split; [exact Hs|exact Ha].
Defined.

(** ** More on the planner *)

(** Where an event of a plan comes from. *)
Lemma In_planAt (this : CollectionService) (invoice : InvoiceReminderData)
  (today : Z) (r : Reminder) :
  In r (planAt this invoice today) ->
  exists due,
    Invoice.dueDate invoice = Some due
    /\ ((exists d, In d (daysBeforeDue (config this))
                   /\ d <= ceilDays (due - today)
                   /\ r = beforeReminder invoice today
                            (ceilDays (due - today)) d)
        \/ (exists a, In a (daysAfterDue (config this))
                      /\ ceilDays (due - today) < - a
                      /\ r = afterReminder invoice due a)).
Proof.
  intro Hin. rewrite planAt_unsliced in Hin. apply slice0_incl in Hin.
  unfold unsliced in Hin.
  destruct (Invoice.dueDate invoice) as [due|]; [|contradiction].
  exists due. split; [reflexivity|]. cbv zeta in Hin.
  apply in_app_or in Hin. destruct Hin as [Hin|Hin];
    apply in_map_iff in Hin; destruct Hin as [d [<- Hd]];
    apply filter_In in Hd; destruct Hd as [Hd Hq]; simpl in Hq.
  - left. exists d. apply Z.leb_le in Hq. auto.
  - right. exists d. apply Z.ltb_lt in Hq. auto.
Qed.

(** X3: the types and templates of a plan go together, and only five of the
    six reminder types are ever planned: a [due_soon] event carries one of
    the two payment-reminder templates, [overdue_1], [overdue_7] and
    [overdue_14] carry [invoice_overdue], [overdue_30] carries
    [final_warning], and no event has the type [final_warning]. *)
Theorem planAt_type_template
  (this : CollectionService) (invoice : InvoiceReminderData)
  (today : Z) (r : Reminder)
  (Hin : In r (planAt this invoice today)) :
  match type r with
  | due_soon => template r = "payment_reminder"%string
                \/ template r = "payment_reminder_urgent"%string
  | overdue_1 | overdue_7 | overdue_14 =>
      template r = "invoice_overdue"%string
  | overdue_30 => template r = "final_warning"%string
  | final_warning => False
  end.
Proof.
  apply In_planAt in Hin. destruct Hin as [due [_ H]].
  destruct H as [[d [_ [_ ->]]]|[a [_ [_ ->]]]]; simpl.
  - destruct (ceilDays (due - today) <=? 1); auto.
  - unfold afterType.
    destruct (Z.leb_spec 7 a), (Z.leb_spec 14 a), (Z.leb_spec 30 a);
      try reflexivity; lia.
Qed.

Lemma planAt_type_template_witness :
  template (afterReminder (sampleInvoice (Some (addDays sampleToday (-45))))
                          (addDays sampleToday (-45)) 30)
  = "final_warning"%string.
Proof.
  apply (planAt_type_template defaultService
           (sampleInvoice (Some (addDays sampleToday (-45)))) sampleToday
           (afterReminder (sampleInvoice (Some (addDays sampleToday (-45))))
                          (addDays sampleToday (-45)) 30)).
  vm_compute. do 3 right. left. reflexivity.
Defined.

(** X4: [sendReminder] picks the template of the mail from the type of the
    reminder, not from its [template] field. For a planned reminder the two
    agree except for the urgent variant, which is never sent: an urgent
    reminder goes out with the standard [payment_reminder] template. *)
Theorem reminderPayload_template_of_plan
  (this : CollectionService) (invoice : InvoiceReminderData)
  (today dateNow : Z) (r : Reminder)
  (Hin : In r (planAt this invoice today)) :
  Email.template (reminderPayload r invoice dateNow)
  = (if String.eqb (template r) "payment_reminder_urgent"
     then "payment_reminder"%string else template r).
Proof.
  apply In_planAt in Hin. destruct Hin as [due [_ H]].
  destruct H as [[d [_ [_ ->]]]|[a [_ [_ ->]]]]; simpl.
  - destruct (ceilDays (due - today) <=? 1); reflexivity.
  - unfold afterType.
    destruct (Z.leb_spec 7 a), (Z.leb_spec 14 a), (Z.leb_spec 30 a);
      try reflexivity; lia.
Qed.

Lemma reminderPayload_template_of_plan_witness :
  Email.template
    (reminderPayload
       (beforeReminder (sampleInvoice (Some (addDays sampleToday 1)))
                       sampleToday 1 1)
       (sampleInvoice (Some (addDays sampleToday 1))) sampleToday)
  = "payment_reminder"%string.
Proof.
  apply (reminderPayload_template_of_plan defaultService
           (sampleInvoice (Some (addDays sampleToday 1))) sampleToday
           sampleToday
           (beforeReminder (sampleInvoice (Some (addDays sampleToday 1)))
                           sampleToday 1 1)).
  vm_compute. left. reflexivity.
Defined.

(** X5: with offsets that are not negative, a plan is of one kind. Up to
    the due instant and during the day after it ([daysUntilDue >= 0]) every
    event is [due_soon]; from one day after the due instant on
    ([daysUntilDue < 0]) no event is. *)
Theorem planAt_one_kind
  (this : CollectionService) (invoice : InvoiceReminderData) (today due : Z)
  (Hdate : Invoice.dueDate invoice = Some due)
  (Hb : Forall (fun d => 0 <= d) (daysBeforeDue (config this)))
  (Ha : Forall (fun a => 0 <= a) (daysAfterDue (config this))) :
  (0 <= ceilDays (due - today) ->
   Forall (fun r => type r = due_soon) (planAt this invoice today))
  /\ (ceilDays (due - today) < 0 ->
      Forall (fun r => type r <> due_soon) (planAt this invoice today)).
Proof.
  rewrite Forall_forall in Hb, Ha.
  split; intro Hn; apply Forall_forall; intros r Hin;
    apply In_planAt in Hin; destruct Hin as [due' [Hd' H]];
    rewrite Hdate in Hd'; injection Hd' as <-;
    destruct H as [[d [Hd [Hle ->]]]|[a [Hin [Hlt ->]]]]; simpl.
  - reflexivity.
  - specialize (Ha a Hin). lia.
  - specialize (Hb d Hd). lia.
  - apply afterType_not_due_soon.
Qed.

Lemma planAt_one_kind_witness :
  Forall (fun r => type r <> due_soon)
         (planAt defaultService
            (sampleInvoice (Some (addDays sampleToday (-10)))) sampleToday).
Proof.
  apply (planAt_one_kind defaultService
           (sampleInvoice (Some (addDays sampleToday (-10)))) sampleToday
           (addDays sampleToday (-10))).
  - reflexivity.
  - simpl. repeat constructor; lia.
  - simpl. repeat constructor; lia.
  - vm_compute. reflexivity.
Defined.

Lemma numToString_inj (a b : Z) : numToString a = numToString b -> a = b.
Proof.
  unfold numToString. intro H. apply DecimalZ.to_int_inj.
  assert (N : forall z, Z.to_int z <> Decimal.Pos Decimal.Nil
                        /\ Z.to_int z <> Decimal.Neg Decimal.Nil).
  { intros [|p|p]; simpl; split; try discriminate;
      intro E; injection E as E;
      now apply DecimalPos.Unsigned.to_uint_nonnil in E. }
  pose proof (NilZero.isi (Z.to_int a) (proj1 (N a)) (proj2 (N a))) as Ea.
  pose proof (NilZero.isi (Z.to_int b) (proj1 (N b)) (proj2 (N b))) as Eb.
  rewrite H in Ea. rewrite Ea in Eb. now injection Eb.
Qed.

Lemma append_inj_l (s a b : string) :
  (s ++ a)%string = (s ++ b)%string -> a = b.
Proof.
  induction s as [|c s IH]; simpl; intro H; [exact H|].
  injection H as H. auto.
Qed.

Lemma NoDup_map_inj {A B : Type} (f : A -> B) (l : list A) :
  (forall x y, f x = f y -> x = y) -> NoDup l -> NoDup (map f l).
Proof.
  intros Hf. induction 1 as [|x l Hx _ IH]; simpl; constructor; auto.
  intro Hin. apply in_map_iff in Hin. destruct Hin as [y [E Hy]].
  apply Hf in E. subst. contradiction.
Qed.

(** X6: when neither list of offsets repeats an offset, the ids of a plan
    are pairwise different. *)
Theorem planAt_ids_unique
  (this : CollectionService) (invoice : InvoiceReminderData) (today : Z)
  (Hb : NoDup (daysBeforeDue (config this)))
  (Ha : NoDup (daysAfterDue (config this))) :
  NoDup (map id (planAt this invoice today)).
Proof.
  rewrite planAt_unsliced, slice0_map. unfold slice0. apply NoDup_firstn.
  unfold unsliced. destruct (Invoice.dueDate invoice) as [due|];
    [|constructor].
  cbv zeta. rewrite map_app, !map_map. apply NoDup_app.
  - apply NoDup_map_inj; [|now apply NoDup_filter].
    intros x y E. simpl in E. injection E as E.
    apply append_inj_l in E. simpl in E.
    apply (append_inj_l "_before_") in E. now apply numToString_inj.
  - apply NoDup_map_inj; [|now apply NoDup_filter].
    intros x y E. simpl in E. injection E as E.
    apply append_inj_l in E.
    apply (append_inj_l "_after_") in E. now apply numToString_inj.
  - intros s H1 H2.
    apply in_map_iff in H1. destruct H1 as [x [<- _]].
    apply in_map_iff in H2. destruct H2 as [y [E _]].
    simpl in E. injection E as E. apply append_inj_l in E.
    simpl in E. discriminate E.
Qed.

Lemma planAt_ids_unique_witness :
  NoDup (map id (planAt defaultService
                   (sampleInvoice (Some (addDays sampleToday (-45))))
                   sampleToday)).
Proof.
  apply planAt_ids_unique; simpl; repeat constructor; simpl;
    intuition discriminate.
Defined.

Lemma slice0_nil {A : Type} (e : Z) : slice0 (@nil A) e = [].
Proof. unfold slice0. apply firstn_nil. Qed.

(** X7: with room for at least one reminder, a plan is empty exactly when the
    due date is invalid or no offset passes its test: every before-due offset
    is above [daysUntilDue] and no after-due offset [a] has
    [daysUntilDue < -a]. *)
Theorem planAt_empty_iff
  (this : CollectionService) (invoice : InvoiceReminderData) (today : Z)
  (Hmax : 0 < maxReminders (config this)) :
  planAt this invoice today = []
  <-> match Invoice.dueDate invoice with
      | None => True
      | Some due =>
          Forall (fun d => ceilDays (due - today) < d)
                 (daysBeforeDue (config this))
          /\ Forall (fun a => - a <= ceilDays (due - today))
                    (daysAfterDue (config this))
      end.
Proof.
  split.
  - intro E. destruct (Invoice.dueDate invoice) as [due|] eqn:Hdate;
      [|exact I].
    assert (U : unsliced this invoice today = []).
    { rewrite planAt_unsliced in E. unfold slice0 in E.
      destruct (unsliced this invoice today) as [|r l]; [reflexivity|].
      exfalso. revert E.
      assert (Hlt : (maxReminders (config this) <? 0) = false)
        by (apply Z.ltb_ge; lia).
      rewrite Hlt.
      destruct (Z.to_nat (Z.min (maxReminders (config this))
                                (Z.of_nat (List.length (r :: l))))) eqn:En.
      - simpl List.length in En. lia.
      - simpl. discriminate. }
    unfold unsliced in U. rewrite Hdate in U. cbv zeta in U.
    apply app_eq_nil in U. destruct U as [U1 U2].
    apply map_eq_nil in U1. apply map_eq_nil in U2.
    split; apply Forall_forall; intros x Hx.
    + destruct (Z.ltb_spec (ceilDays (due - today)) x) as [|Hge]; [assumption|].
      assert (Hin : In x (filter (qualifiesBefore (Some (ceilDays (due - today))))
                                 (daysBeforeDue (config this)))).
      { apply filter_In. split; [exact Hx|]. simpl. apply Z.leb_le. lia. }
      rewrite U1 in Hin. contradiction.
    + destruct (Z.leb_spec (- x) (ceilDays (due - today))) as [|Hlt];
        [assumption|].
      assert (Hin : In x (filter (qualifiesAfter (Some (ceilDays (due - today))))
                                 (daysAfterDue (config this)))).
      { apply filter_In. split; [exact Hx|]. simpl. apply Z.ltb_lt. lia. }
      rewrite U2 in Hin. contradiction.
  - intro H. rewrite planAt_unsliced. unfold unsliced.
    destruct (Invoice.dueDate invoice) as [due|]; [|apply slice0_nil].
    destruct H as [Hb Ha]. cbv zeta.
    rewrite (filter_nothing (qualifiesBefore _)), (filter_nothing (qualifiesAfter _)).
    + apply slice0_nil.
    + eapply Forall_impl; [|exact Ha]. simpl. intros a H0.
      apply Z.ltb_ge. lia.
    + eapply Forall_impl; [|exact Hb]. simpl. intros a H0.
      apply Z.leb_gt. lia.
Qed.

Lemma planAt_empty_iff_witness :
  planAt defaultService (sampleInvoice (Some (sampleToday - 1000))) sampleToday
  = [].
Proof.
  apply (planAt_empty_iff defaultService
           (sampleInvoice (Some (sampleToday - 1000))) sampleToday).
  - simpl. lia.
  - simpl. split; repeat constructor; vm_compute; congruence.
Defined.

Lemma firstn_prefix {A : Type} (n m : nat) (l : list A) :
  (n <= m)%nat -> exists rest, firstn m l = firstn n l ++ rest.
Proof.
  revert n m. induction l as [|x l IH]; intros n m H.
  - exists []. now rewrite !firstn_nil.
  - destruct n as [|n].
    + eexists. reflexivity.
    + destruct m as [|m]; [lia|]. destruct (IH n m) as [rest E]; [lia|].
      exists rest. simpl. now rewrite E.
Qed.

(** X8: raising a [maxReminders] that is not negative never changes or
    removes an event of a plan, it only lets more events in at the end: the
    smaller plan is a prefix of the larger one. *)
Theorem planAt_max_prefix
  (this this' : CollectionService) (invoice : InvoiceReminderData)
  (today : Z)
  (Hb : daysBeforeDue (config this) = daysBeforeDue (config this'))
  (Ha : daysAfterDue (config this) = daysAfterDue (config this'))
  (H0 : 0 <= maxReminders (config this))
  (Hle : maxReminders (config this) <= maxReminders (config this')) :
  exists rest,
    planAt this' invoice today = planAt this invoice today ++ rest.
Proof.
  rewrite !planAt_unsliced.
  assert (U : unsliced this' invoice today = unsliced this invoice today)
    by (unfold unsliced; now rewrite Hb, Ha).
  rewrite U. unfold slice0.
  assert (E1 : (maxReminders (config this) <? 0) = false)
    by (apply Z.ltb_ge; lia).
  assert (E2 : (maxReminders (config this') <? 0) = false)
    by (apply Z.ltb_ge; lia).
  rewrite E1, E2. apply firstn_prefix. lia.
Qed.

Lemma planAt_max_prefix_witness :
  exists rest,
    planAt defaultService
      (sampleInvoice (Some (addDays sampleToday (-45)))) sampleToday
    = planAt (setConfig defaultService
                {| daysBeforeDue := [3; 1]; daysAfterDue := [1; 7; 14; 30];
                   enableEmail := true; enablePush := true;
                   maxReminders := 2 |})
        (sampleInvoice (Some (addDays sampleToday (-45)))) sampleToday
      ++ rest.
Proof.
  apply planAt_max_prefix; simpl; (reflexivity || lia).
Defined.

(** ** More on the processor *)

Lemma planAt_invalid (this : CollectionService)
  (invoice : InvoiceReminderData) (today : Z) :
  hasValidDue invoice = false -> planAt this invoice today = [].
Proof.
  unfold hasValidDue. intro H. rewrite planAt_unsliced. unfold unsliced.
  destruct (Invoice.dueDate invoice); [discriminate|]. apply slice0_nil.
Qed.

(** X9: an invoice whose due date is not a valid date gets no reminder and
    is passed over without a trace: a cycle over a batch is the cycle over
    the invoices of the batch that have a valid due date. *)
Theorem processPendingReminders_skips_invalid_dates
  (MailState : Type) (sendEmail : Email.Payload -> M MailState Email.Response)
  (this : CollectionService) (invoices : list InvoiceReminderData)
  (w : Env MailState) :
  processPendingReminders sendEmail this invoices w
  = processPendingReminders sendEmail this (filter hasValidDue invoices) w.
Proof.
  unfold processPendingReminders. generalize {| sent := 0; failed := 0 |}.
  revert w. induction invoices as [|i rest IH]; intros w acc;
    [reflexivity|].
  simpl filter. destruct (hasValidDue i) eqn:Hv.
  - simpl. unfold bind, calculateReminders, now, ret. simpl.
    destruct (processReminders sendEmail this i (planAt this i (time w)) acc w)
      as [[a|e] w1]; [apply IH|reflexivity].
  - simpl. unfold bind, calculateReminders, now, ret. simpl.
    rewrite (planAt_invalid this i (time w) Hv). simpl. unfold ret. apply IH.
Qed.

Section AnyNotifier.

Variable MailState : Type.
Variable sendEmail : Email.Payload -> M MailState Email.Response.
Variable this : CollectionService.

Lemma processReminder_at_most_one (invoice : InvoiceReminderData)
  (reminder : Reminder) (acc : Summary) (w : Env MailState) :
  exists s w',
    processReminder sendEmail this invoice reminder acc w = (Resolved s, w')
    /\ (sent s + failed s <= S (sent acc + failed acc))%nat.
Proof.
  rewrite processReminder_cases.
  destruct (dueAt (time w) reminder).
  - destruct (sendReminder sendEmail this reminder invoice w)
      as [[[r' [|]]|e] w1]; eexists _, _; (split; [reflexivity|]);
      simpl; lia.
  - exists acc, w. split; [reflexivity|lia].
Qed.

Lemma processReminders_at_most_length (invoice : InvoiceReminderData)
  (rs : list Reminder) (acc : Summary) (w : Env MailState) :
  exists s w',
    processReminders sendEmail this invoice rs acc w = (Resolved s, w')
    /\ (sent s + failed s <= sent acc + failed acc + List.length rs)%nat.
Proof.
  revert acc w. induction rs as [|r rs IH]; intros acc w.
  - exists acc, w. split; [reflexivity|simpl; lia].
  - destruct (processReminder_at_most_one invoice r acc w)
      as [s1 [w1 [E1 H1]]].
    destruct (IH s1 w1) as [s [w2 [E2 H2]]].
    exists s, w2. simpl. unfold bind. rewrite E1, E2.
    split; [reflexivity|simpl; lia].
Qed.

Lemma processInvoices_at_most (invoices : list InvoiceReminderData)
  (acc : Summary) (w : Env MailState) :
  0 <= maxReminders (config this) ->
  exists s w',
    processInvoices sendEmail this invoices acc w = (Resolved s, w')
    /\ Z.of_nat (sent s + failed s)
       <= Z.of_nat (sent acc + failed acc)
          + maxReminders (config this) * Z.of_nat (List.length invoices).
Proof.
  intro Hmax. revert acc w.
  induction invoices as [|i rest IH]; intros acc w.
  - exists acc, w. split; [reflexivity|simpl; lia].
  - destruct (processReminders_at_most_length i (planAt this i (time w)) acc w)
      as [s1 [w1 [E1 H1]]].
    destruct (IH s1 w1) as [s [w2 [E2 H2]]].
    exists s, w2. split.
    + simpl. unfold bind, calculateReminders, now, ret. simpl.
      now rewrite E1, E2.
    + assert (Hlen : Z.of_nat (List.length (planAt this i (time w)))
                     <= maxReminders (config this)).
      { rewrite planAt_unsliced. now apply slice0_length. }
      change (List.length (i :: rest)) with (S (List.length rest)). lia.
Qed.

End AnyNotifier.

(** X10: whatever the notifier does, a cycle with a [maxReminders] that is
    not negative resolves with at most [maxReminders] dispatches per invoice
    of the batch: [sent + failed <= maxReminders * invoices.length]. *)
Theorem processPendingReminders_at_most_max_per_invoice
  (MailState : Type) (sendEmail : Email.Payload -> M MailState Email.Response)
  (this : CollectionService) (invoices : list InvoiceReminderData)
  (w : Env MailState)
  (Hmax : 0 <= maxReminders (config this)) :
  exists s w',
    processPendingReminders sendEmail this invoices w = (Resolved s, w')
    /\ Z.of_nat (sent s + failed s)
       <= maxReminders (config this) * Z.of_nat (List.length invoices).
Proof.
  destruct (processInvoices_at_most MailState sendEmail this invoices
              {| sent := 0; failed := 0 |} w Hmax) as [s [w' [E H]]].
  exists s, w'. split; [exact E|]. simpl in H. lia.
Qed.

Lemma processPendingReminders_at_most_max_per_invoice_witness :
  exists s w',
    processPendingReminders rejectingMail defaultService
      [sampleInvoice (Some (addDays sampleToday (-45)));
       sampleInvoice (Some (addDays sampleToday 3))]
      {| time := sampleToday; console := []; mail := tt |} = (Resolved s, w')
    /\ Z.of_nat (sent s + failed s) <= 5 * 2.
Proof.
  apply (processPendingReminders_at_most_max_per_invoice unit rejectingMail
           defaultService
           [sampleInvoice (Some (addDays sampleToday (-45)));
            sampleInvoice (Some (addDays sampleToday 3))]).
  simpl. lia.
Defined.

Lemma slice0_zero {A : Type} (l : list A) : slice0 l 0 = [].
Proof.
  unfold slice0. change (0 <? 0) with false. cbv iota.
  replace (Z.to_nat (Z.min 0 (Z.of_nat (List.length l)))) with O by lia.
  reflexivity.
Qed.

(** X11: with [maxReminders] at 0 a cycle does nothing at all: it resolves
    with no dispatch counted, without calling the notifier and without
    writing to the console. *)
Theorem processPendingReminders_zero_max
  (MailState : Type) (sendEmail : Email.Payload -> M MailState Email.Response)
  (this : CollectionService) (invoices : list InvoiceReminderData)
  (w : Env MailState)
  (Hmax : maxReminders (config this) = 0) :
  processPendingReminders sendEmail this invoices w
  = (Resolved {| sent := 0; failed := 0 |}, w).
Proof.
  unfold processPendingReminders. generalize {| sent := 0; failed := 0 |}.
  induction invoices as [|i rest IH]; intro acc; [reflexivity|].
  simpl. unfold bind, calculateReminders, now, ret. simpl.
  assert (E : planAt this i (time w) = []).
  { rewrite planAt_unsliced, Hmax. apply slice0_zero. }
  rewrite E. simpl. unfold ret. apply IH.
Qed.

Lemma processPendingReminders_zero_max_witness :
  let this :=
    setConfigPartial defaultService
      {| daysBeforeDue_opt := None; daysAfterDue_opt := None;
         enableEmail_opt := None; enablePush_opt := None;
         maxReminders_opt := Some 0 |} in
  processPendingReminders EmailService.sendEmail this
    [sampleInvoice (Some (addDays sampleToday (-45)))]
    (mockEnv true sampleToday)
  = (Resolved {| sent := 0; failed := 0 |}, mockEnv true sampleToday).
Proof.
  cbv zeta. apply processPendingReminders_zero_max. reflexivity.
Defined.

Section ChannelOff.

Variable MailState : Type.
Variable sendEmail : Email.Payload -> M MailState Email.Response.
Variable this : CollectionService.
Hypothesis channel_off : enableEmail (config this) = false.

Lemma processReminders_channel_off (invoice : InvoiceReminderData)
  (rs : list Reminder) (acc : Summary) (w : Env MailState) :
  processReminders sendEmail this invoice rs acc w
  = (Resolved {| sent := sent acc + List.length (filter (dueAt (time w)) rs);
                 failed := failed acc |},
     {| time := time w;
        console :=
          console w
          ++ map (fun r => CollectionSending (type r)
                             (Invoice.invoiceId invoice))
                 (filter (dueAt (time w)) rs);
        mail := mail w |}).
Proof.
  revert acc w. induction rs as [|r rs IH]; intros acc w.
  - simpl. unfold ret. rewrite app_nil_r, Nat.add_0_r.
    destruct acc, w; reflexivity.
  - simpl processReminders. unfold bind.
    rewrite processReminder_cases. simpl filter.
    destruct (dueAt (time w) r).
    + rewrite sendReminder_cases, channel_off. cbv beta iota zeta.
      rewrite IH. simpl. rewrite <- app_assoc. simpl.
      do 2 f_equal. f_equal. lia.
    + apply IH.
Qed.

Lemma processInvoices_channel_off (invoices : list InvoiceReminderData)
  (acc : Summary) (w : Env MailState) :
  processInvoices sendEmail this invoices acc w
  = (Resolved {| sent := sent acc
                         + List.length (cycleLines this (time w) invoices);
                 failed := failed acc |},
     {| time := time w;
        console := console w ++ cycleLines this (time w) invoices;
        mail := mail w |}).
Proof.
  revert acc w. induction invoices as [|i rest IH]; intros acc w.
  - simpl. unfold ret. rewrite app_nil_r, Nat.add_0_r.
    destruct acc, w; reflexivity.
  - simpl. unfold bind, calculateReminders, now, ret. simpl.
    rewrite processReminders_channel_off, IH. simpl.
    unfold dispatchLines. rewrite <- app_assoc, length_app, length_map.
    do 2 f_equal. f_equal. lia.
Qed.

End ChannelOff.

(** X12: with the email channel disabled the notifier is never called. A
    cycle then changes nothing but the console, where it writes one
    [Sending] line per reminder that is due at the start of the cycle, and it
    counts every one of these reminders as sent and none as failed. *)
Theorem processPendingReminders_channel_off
  (MailState : Type) (sendEmail : Email.Payload -> M MailState Email.Response)
  (this : CollectionService) (invoices : list InvoiceReminderData)
  (w : Env MailState)
  (Hoff : enableEmail (config this) = false) :
  processPendingReminders sendEmail this invoices w
  = (Resolved {| sent := List.length (cycleLines this (time w) invoices);
                 failed := 0 |},
     {| time := time w;
        console := console w ++ cycleLines this (time w) invoices;
        mail := mail w |}).
Proof.
  unfold processPendingReminders.
  now rewrite (processInvoices_channel_off MailState sendEmail this Hoff).
Qed.

Lemma processPendingReminders_channel_off_witness :
  let this :=
    setConfigPartial defaultService
      {| daysBeforeDue_opt := None; daysAfterDue_opt := None;
         enableEmail_opt := Some false; enablePush_opt := None;
         maxReminders_opt := None |} in
  let invoices := [sampleInvoice (Some (addDays sampleToday (-10)))] in
  processPendingReminders rejectingMail this invoices
    {| time := sampleToday; console := []; mail := tt |}
  = (Resolved {| sent := List.length (cycleLines this sampleToday invoices);
                 failed := 0 |},
     {| time := sampleToday;
        console := [] ++ cycleLines this sampleToday invoices;
        mail := tt |}).
Proof.
  cbv zeta.
  apply (processPendingReminders_channel_off unit rejectingMail).
  reflexivity.
Defined.

(** X13: with the email channel enabled and a notifier that rejects every
    call, a cycle still resolves, and it counts nothing as sent. *)
Theorem processPendingReminders_nothing_sent
  (MailState : Type) (sendEmail : Email.Payload -> M MailState Email.Response)
  (this : CollectionService) (invoices : list InvoiceReminderData)
  (w : Env MailState)
  (Hon : enableEmail (config this) = true)
  (Hrej : forall p w, exists e w', sendEmail p w = (Rejected e, w')) :
  exists s w',
    processPendingReminders sendEmail this invoices w = (Resolved s, w')
    /\ sent s = 0%nat.
Proof.
  apply (processInvoices_all_fail MailState sendEmail this Hon Hrej).
Qed.

Lemma processPendingReminders_nothing_sent_witness :
  exists s w',
    processPendingReminders rejectingMail defaultService
      [sampleInvoice (Some (addDays sampleToday (-10)))]
      {| time := sampleToday; console := []; mail := tt |} = (Resolved s, w')
    /\ sent s = 0%nat.
Proof.
  apply (processPendingReminders_nothing_sent unit rejectingMail).
  - reflexivity.
  - intros p w. exists "network down"%string, w. reflexivity.
Defined.

(** ** The mock email service behind the processor *)

Lemma EmailService_sendEmail_resolves (p : Email.Payload)
  (w : Env EmailService.State) :
  exists resp w',
    EmailService.sendEmail p w = (Resolved resp, w') /\ time w <= time w'.
Proof.
  unfold EmailService.sendEmail.
  destruct (negb (EmailService.isEnabled (mail w))).
  - eexists _, _. split; [reflexivity|]. simpl. lia.
  - destruct (negb (EmailService.hasTemplate (Email.template p))).
    + eexists _, _. split; [reflexivity|]. simpl. lia.
    + eexists _, _. split; [reflexivity|]. simpl.
      unfold EmailService.networkDelay. lia.
Qed.

(** X14: with the email service of the repository as the notifier, a cycle
    never reports a failure, whatever the service answers (disabled, unknown
    template or mail simulated): [failed] is 0, and the clock does not go
    back. *)
Theorem processPendingReminders_mock_never_fails
  (this : CollectionService) (invoices : list InvoiceReminderData)
  (w : Env EmailService.State) :
  exists s w',
    processPendingReminders EmailService.sendEmail this invoices w
    = (Resolved s, w')
    /\ failed s = 0%nat
    /\ time w <= time w'.
Proof.
  destruct (processInvoices_sends EmailService.State EmailService.sendEmail
              this EmailService_sendEmail_resolves invoices
              {| sent := 0; failed := 0 |} w)
    as [s [w' [E [Ht [Hf _]]]]].
  exists s, w'. auto.
Qed.

(** X15: through the email service of the repository, enabled, a reminder of
    type [overdue_30] or [final_warning] is never mailed: its template
    [final_warning] is no key of [EMAIL_TEMPLATES], the service answers
    [success: false] at once, and [sendReminder] still returns [true] with
    the reminder's status set to [sent] and its [sentAt] to the time of the
    call. A reminder of any other type is mailed: the mail is logged, the
    call takes the 500 ms of the service, and the reminder is marked sent at
    the time after them. *)
Theorem sendReminder_final_warning_not_mailed
  (this : CollectionService) (reminder : Reminder)
  (invoice : InvoiceReminderData) (w : Env EmailService.State)
  (Hon : enableEmail (config this) = true)
  (Hen : EmailService.isEnabled (mail w) = true) :
  let w0 :=
    withLog w (CollectionSending (type reminder) (Invoice.invoiceId invoice)) in
  match type reminder with
  | overdue_30 | final_warning =>
      exists r',
        sendReminder EmailService.sendEmail this reminder invoice w
        = (Resolved (r', true),
           withLog w0 (EmailUnknownTemplate "final_warning"))
        /\ status r' = ReminderStatus.sent
        /\ sentAt r' = Some (time w)
  | _ =>
      exists r' w',
        sendReminder EmailService.sendEmail this reminder invoice w
        = (Resolved (r', true), w')
        /\ status r' = ReminderStatus.sent
        /\ sentAt r' = Some (time w + 500)
        /\ time w' = time w + 500
        /\ console w'
           = console w0
             ++ [EmailSimulated (reminderPayload reminder invoice (time w))]
  end.
Proof.
  cbv zeta. rewrite sendReminder_cases, Hon. cbv zeta.
  unfold EmailService.sendEmail. simpl mail. rewrite Hen. simpl negb.
  cbv iota.
  change (Email.template (reminderPayload reminder invoice (time w)))
    with (templateMap (type reminder)).
  destruct (type reminder) eqn:Ht; simpl; rewrite ?Ht;
    try (eexists _, _; split; [reflexivity|repeat split; reflexivity]);
    (eexists; split; [reflexivity|split; reflexivity]).
Qed.

Lemma sendReminder_final_warning_not_mailed_witness :
  let invoice := sampleInvoice (Some (addDays sampleToday (-45))) in
  let reminder := afterReminder invoice (addDays sampleToday (-45)) 30 in
  exists r',
    sendReminder EmailService.sendEmail defaultService reminder invoice
      (mockEnv true sampleToday)
    = (Resolved (r', true),
       withLog (withLog (mockEnv true sampleToday)
                  (CollectionSending overdue_30 "F-2024-001"))
               (EmailUnknownTemplate "final_warning"))
    /\ status r' = ReminderStatus.sent
    /\ sentAt r' = Some sampleToday.
Proof.
  cbv zeta.
  apply (sendReminder_final_warning_not_mailed defaultService
           (afterReminder (sampleInvoice (Some (addDays sampleToday (-45))))
                          (addDays sampleToday (-45)) 30)
           (sampleInvoice (Some (addDays sampleToday (-45))))
           (mockEnv true sampleToday)).
  - reflexivity.
  - reflexivity.
Defined.

(** X16: for a template of [EMAIL_TEMPLATES], [sendEmail] of the email
    service resolves with [success] equal to the enabled flag. Enabled, it
    logs the mail, takes 500 ms and answers with a non-empty message id
    stamped with the time after the delay; disabled, it only logs a warning
    and answers at once with an empty message id. In both cases it leaves the
    enabled flag as it was. *)
Theorem EmailService_sendEmail_known_template
  (p : Email.Payload) (w : Env EmailService.State)
  (Hknown : EmailService.hasTemplate (Email.template p) = true) :
  exists resp w',
    EmailService.sendEmail p w = (Resolved resp, w')
    /\ Email.success resp = EmailService.isEnabled (mail w)
    /\ EmailService.isEnabled (mail w') = EmailService.isEnabled (mail w)
    /\ (if EmailService.isEnabled (mail w)
        then time w' = time w + 500
             /\ Email.timestamp resp = time w + 500
             /\ Email.messageId resp <> ""%string
             /\ console w' = console w ++ [EmailSimulated p]
        else w' = withLog w EmailDisabled
             /\ Email.timestamp resp = time w
             /\ Email.messageId resp = ""%string).
Proof.
  unfold EmailService.sendEmail. rewrite Hknown.
  destruct (EmailService.isEnabled (mail w)) eqn:Hen; simpl.
  - eexists _, _. split; [reflexivity|]. simpl.
    repeat split; auto. discriminate.
  - eexists _, _. split; [reflexivity|]. simpl. repeat split; auto.
Qed.

Lemma EmailService_sendEmail_known_template_witness :
  exists resp w',
    EmailService.sendEmail
      (reminderPayload
         (afterReminder (sampleInvoice (Some (addDays sampleToday (-10))))
                        (addDays sampleToday (-10)) 1)
         (sampleInvoice (Some (addDays sampleToday (-10)))) sampleToday)
      (mockEnv false sampleToday) = (Resolved resp, w')
    /\ Email.success resp = false
    /\ EmailService.isEnabled (mail w') = false
    /\ w' = withLog (mockEnv false sampleToday) EmailDisabled
    /\ Email.timestamp resp = sampleToday
    /\ Email.messageId resp = ""%string.
Proof.
  apply (EmailService_sendEmail_known_template
           (reminderPayload
              (afterReminder (sampleInvoice (Some (addDays sampleToday (-10))))
                             (addDays sampleToday (-10)) 1)
              (sampleInvoice (Some (addDays sampleToday (-10)))) sampleToday)
           (mockEnv false sampleToday)).
  reflexivity.
Defined.

(** ** The hook and the email service *)

Lemma eqb_cases (a b : string) : String.eqb a b = true \/ String.eqb a b = false.
Proof. destruct (String.eqb a b); auto. Qed.

(** X17: the templates the hook lets through are templates the email
    service knows, and the [marketing] preference plays no part. With the
    master switch and the five categories on, [canSendTemplate] accepts
    exactly the keys of [EMAIL_TEMPLATES]; with the master switch off it
    accepts none. *)
Theorem canSendTemplate_known_templates
  (preferences : EmailNotifications.EmailPreferences) (template : string) :
  (EmailNotifications.canSendTemplate preferences template = true ->
   EmailService.hasTemplate template = true)
  /\ (EmailNotifications.enabled preferences = true ->
      EmailNotifications.cases preferences = true ->
      EmailNotifications.invoices preferences = true ->
      EmailNotifications.hearings preferences = true ->
      EmailNotifications.messages preferences = true ->
      EmailNotifications.documents preferences = true ->
      EmailNotifications.canSendTemplate preferences template
      = EmailService.hasTemplate template)
  /\ (EmailNotifications.enabled preferences = false ->
      EmailNotifications.canSendTemplate preferences template = false).
Proof.
  unfold EmailNotifications.canSendTemplate, EmailNotifications.templateMap,
    EmailService.hasTemplate, EmailService.EMAIL_TEMPLATES.
  cbn [existsb].
  split; [|split].
  - destruct (EmailNotifications.enabled preferences); simpl;
      [|discriminate].
    repeat match goal with
    | |- context [String.eqb template ?s] =>
        destruct (String.eqb template s); simpl; try reflexivity
    end.
    discriminate.
  - intros -> Hc Hi Hh Hm Hd. simpl.
    repeat match goal with
    | |- context [String.eqb template ?s] =>
        destruct (String.eqb template s); simpl; try assumption
    end.
    reflexivity.
  - intros ->. reflexivity.
Qed.

Lemma canSendTemplate_known_templates_witness :
  EmailService.hasTemplate "invoice_overdue" = true.
Proof.
  apply (proj1 (canSendTemplate_known_templates
                  EmailNotifications.DEFAULT_PREFERENCES "invoice_overdue")).
  reflexivity.
Defined.

(** ** [setConfig] *)


(** ** Custom reports *)

Section ReportsFacts.

Variable Filters : Type.

Lemma findIndex_Some (reportId : string)
  (l : list (Reports.CustomReport Filters)) (i : nat) :
  Reports.findIndex reportId l = Some i ->
  exists l1 r l2,
    l = l1 ++ r :: l2
    /\ Reports.id r = reportId
    /\ Forall (fun x => Reports.id x <> reportId) l1
    /\ Reports.splice1 i l = l1 ++ l2.
Proof.
  revert i. induction l as [|x l IH]; intros i H; simpl in H;
    [discriminate|].
  destruct (String.eqb_spec (Reports.id x) reportId) as [E|N].
  - injection H as <-. exists [], x, l. repeat split; auto.
  - destruct (Reports.findIndex reportId l) as [j|]; [|discriminate].
    injection H as <-. destruct (IH j eq_refl) as [l1 [r [l2 [E1 [E2 [F S1]]]]]].
    exists (x :: l1), r, l2. subst l. repeat split; auto.
    unfold Reports.splice1 in *.
    change (x :: (firstn j (l1 ++ r :: l2) ++ skipn (S j) (l1 ++ r :: l2))
            = x :: (l1 ++ l2)).
    now rewrite S1.
Qed.

Lemma findIndex_None (reportId : string)
  (l : list (Reports.CustomReport Filters)) :
  Reports.findIndex reportId l = None ->
  Forall (fun x => Reports.id x <> reportId) l.
Proof.
  induction l as [|x l IH]; intro H; simpl in H; [constructor|].
  destruct (String.eqb_spec (Reports.id x) reportId) as [E|N];
    [discriminate|].
  destruct (Reports.findIndex reportId l); [discriminate|].
  constructor; auto.
Qed.

Lemma findReport_skip (reportId : string)
  (l1 l2 : list (Reports.CustomReport Filters)) :
  Forall (fun x => Reports.id x <> reportId) l1 ->
  Reports.findReport reportId (l1 ++ l2) = Reports.findReport reportId l2.
Proof.
  unfold Reports.findReport.
  induction 1 as [|x l Hx _ IH]; simpl; [reflexivity|].
  destruct (String.eqb_spec (Reports.id x) reportId); [contradiction|exact IH].
Qed.

Lemma findIndex_skip (reportId : string)
  (l1 : list (Reports.CustomReport Filters))
  (r : Reports.CustomReport Filters)
  (l2 : list (Reports.CustomReport Filters)) :
  Forall (fun x => Reports.id x <> reportId) l1 ->
  Reports.id r = reportId ->
  Reports.findIndex reportId (l1 ++ r :: l2) = Some (List.length l1).
Proof.
  intros H E. induction H as [|x l Hx _ IH]; simpl.
  - rewrite E, String.eqb_refl. reflexivity.
  - destruct (String.eqb_spec (Reports.id x) reportId); [contradiction|].
    now rewrite IH.
Qed.

Lemma splice1_middle (l1 : list (Reports.CustomReport Filters))
  (r : Reports.CustomReport Filters)
  (l2 : list (Reports.CustomReport Filters)) :
  Reports.splice1 (List.length l1) (l1 ++ r :: l2) = l1 ++ l2.
Proof.
  unfold Reports.splice1. induction l1 as [|x l1 IH]; [reflexivity|].
  change (x :: (firstn (List.length l1) (l1 ++ r :: l2)
                ++ skipn (S (List.length l1)) (l1 ++ r :: l2))
          = x :: (l1 ++ l2)).
  now rewrite IH.
Qed.

End ReportsFacts.

(** X19: [deleteCustomReport] answers [true] exactly when some report has
    the id. It then takes out the first report with that id and no other,
    keeping the order, and writes the new list to the storage; otherwise it
    changes neither the list nor the storage. *)
Theorem deleteCustomReport_removes_first
  (Filters : Type) (reportId : string) (st : Reports.State Filters) :
  match Reports.deleteCustomReport reportId st with
  | (true, st') =>
      exists l1 r l2,
        Reports.customReports st = l1 ++ r :: l2
        /\ Reports.id r = reportId
        /\ Forall (fun x => Reports.id x <> reportId) l1
        /\ Reports.customReports st' = l1 ++ l2
        /\ Reports.stored st' = Some (l1 ++ l2)
  | (false, st') =>
      st' = st
      /\ Forall (fun x => Reports.id x <> reportId) (Reports.customReports st)
  end.
Proof.
  unfold Reports.deleteCustomReport.
  destruct (Reports.findIndex reportId (Reports.customReports st)) as [i|] eqn:E.
  - destruct (findIndex_Some Filters reportId _ i E)
      as [l1 [r [l2 [E1 [E2 [F S1]]]]]].
    exists l1, r, l2. simpl. rewrite S1. auto.
  - split; [reflexivity|]. now apply findIndex_None.
Qed.

(** X20: [executeCustomReport] rejects with [Report not found], leaving the
    environment as it was, exactly when no report in memory has the id.
    Otherwise it resolves 500 ms later with the columns of the first report
    that has the id. *)
Theorem executeCustomReport_first_match
  (Filters MailState : Type) (st : Reports.State Filters)
  (reportId : string) (w : Env MailState) :
  (Forall (fun x => Reports.id x <> reportId) (Reports.customReports st)
   /\ Reports.executeCustomReport MailState st reportId w
      = (Rejected "Report not found"%string, w))
  \/ (exists l1 r l2 res,
        Reports.customReports st = l1 ++ r :: l2
        /\ Reports.id r = reportId
        /\ Forall (fun x => Reports.id x <> reportId) l1
        /\ Reports.executeCustomReport MailState st reportId w
           = (Resolved res,
              {| time := time w + 500; console := console w;
                 mail := mail w |})
        /\ Reports.result_columns res = Reports.columns r).
Proof.
  unfold Reports.executeCustomReport.
  destruct (Reports.findIndex reportId (Reports.customReports st)) as [i|] eqn:E.
  - right. destruct (findIndex_Some Filters reportId _ i E)
      as [l1 [r [l2 [E1 [E2 [F _]]]]]].
    exists l1, r, l2. rewrite E1, (findReport_skip Filters reportId l1 _ F).
    unfold Reports.findReport. simpl. rewrite E2, String.eqb_refl.
    eexists. repeat split; auto.
  - left. apply findIndex_None in E. split; [exact E|].
    replace (Reports.findReport reportId (Reports.customReports st))
      with (@None (Reports.CustomReport Filters)); [reflexivity|].
    symmetry. unfold Reports.findReport.
    induction E as [|x l Hx _ IH]; simpl; [reflexivity|].
    destruct (String.eqb_spec (Reports.id x) reportId); [contradiction|exact IH].
Qed.

(** X21: the id of a custom report is made of the clock alone. Two reports
    get the same id exactly when they are created at the same reading of the
    clock; created one after the other at one reading, with no older report
    of that id, the id stands for the first of the two only:
    [executeCustomReport] answers with the columns of the first, and
    [deleteCustomReport] takes out the first and leaves the second. *)
Theorem createCustomReport_same_clock
  (Filters MailState : Type) (t1 t2 : Z)
  (d1 d2 : Reports.ReportDraft Filters) (st : Reports.State Filters)
  (w : Env MailState)
  (Hfresh : Forall (fun x => Reports.id x
                             <> ("report_" ++ numToString t1)%string)
                   (Reports.customReports st)) :
  let (r1, st1) := Reports.createCustomReport t1 d1 st in
  let (r2, st2) := Reports.createCustomReport t2 d2 st1 in
  (Reports.id r1 = Reports.id r2 <-> t1 = t2)
  /\ (t1 = t2 ->
      (exists res w',
         Reports.executeCustomReport MailState st2 (Reports.id r2) w
         = (Resolved res, w')
         /\ Reports.result_columns res = Reports.draft_columns d1)
      /\ Reports.deleteCustomReport (Reports.id r2) st2
         = (true,
            {| Reports.customReports := Reports.customReports st ++ [r2];
               Reports.stored := Some (Reports.customReports st ++ [r2]) |})).
Proof.
  simpl. split.
  - split; intro H; [|now subst].
    apply (append_inj_l "report_") in H. now apply numToString_inj.
  - intros <-. split.
    + unfold Reports.executeCustomReport. simpl.
      rewrite <- app_assoc, (findReport_skip Filters _ _ _ Hfresh).
      unfold Reports.findReport. simpl. rewrite String.eqb_refl.
      eexists _, _. split; reflexivity.
    + unfold Reports.deleteCustomReport. simpl.
      rewrite <- app_assoc. simpl.
      erewrite (findIndex_skip Filters _ _ _ _ Hfresh); [|reflexivity].
      now rewrite splice1_middle.
Qed.

Lemma createCustomReport_same_clock_witness :
  let (r1, st1) :=
    Reports.createCustomReport sampleToday (Reports.sampleDraft ["name"%string])
      Reports.emptyState in
  let (r2, st2) :=
    Reports.createCustomReport sampleToday
      (Reports.sampleDraft ["billed"%string]) st1 in
  (Reports.id r1 = Reports.id r2 <-> sampleToday = sampleToday)
  /\ (sampleToday = sampleToday ->
      (exists res w',
         Reports.executeCustomReport unit st2 (Reports.id r2)
           {| time := sampleToday; console := []; mail := tt |}
         = (Resolved res, w')
         /\ Reports.result_columns res
            = Reports.draft_columns (Reports.sampleDraft ["name"%string]))
      /\ Reports.deleteCustomReport (Reports.id r2) st2
         = (true,
            {| Reports.customReports :=
                 Reports.customReports Reports.emptyState ++ [r2];
               Reports.stored :=
                 Some (Reports.customReports Reports.emptyState ++ [r2]) |})).
Proof.
  apply (createCustomReport_same_clock unit unit sampleToday sampleToday
           (Reports.sampleDraft ["name"%string])
           (Reports.sampleDraft ["billed"%string]) Reports.emptyState
           {| time := sampleToday; console := []; mail := tt |}).
  constructor.
Defined.
